(** * petri_dish.connectors: the Google Sheets connector

    A shallow embedding of [GoogleSheetConnector] (__init__, open,
    _shape_to_range, write, read) over an executable model of the two
    libraries it drives: the gspread client of the 3.x line (a drive of
    spreadsheets, each a list of worksheet grids of text) and the pandas
    DataFrame (named columns over ordered rows, under the default index).

    Remote state is passed explicitly as a [World]; every library call
    the connector makes (on the gspread client, a spreadsheet or a
    worksheet, and [astype] of pandas) is appended to the world's call
    log, so that "exactly one call" and "without attempting a cast" are
    statements about that log. Python exceptions are the [Raise] outcome
    of the monad; the state reached when one is raised is kept. *)

From Stdlib Require Import ZArith Ascii String DecimalString DecimalPos DecimalZ.
From stdpp Require Import gmap strings list fin_maps.

Open Scope Z_scope.

(** ** Python values and exceptions *)

(** The values a table cell holds: Python ints and strs, and the float
    NaN pandas uses for a missing entry. Other floats are outside the
    model. *)
Inductive value : Type :=
| VInt (z : Z)
| VStr (s : string)
| VNaN.

(** The type objects passed in [data_types]: the builtins [int] and
    [str]. *)
Inductive dtype : Type :=
| int_t
| str_t.

(** Exceptions, by class. The [__cause__] set by [raise ... from e] is not
    modelled. *)
Inductive exn : Type :=
| Exception (msg : string)
| KeyError (msg : string)
| ValueError (msg : string)
| AttributeError (msg : string)
| SpreadsheetNotFound
| IncorrectCellLabel
| APIError.

Inductive outcome (A : Type) : Type :=
| Ok (a : A)
| Raise (e : exn).
Arguments Ok {A} a.
Arguments Raise {A} e.

Definition dquote : string := String "034"%char EmptyString.

(** [str(z)] for a Python int. *)
Definition str_of_int (z : Z) : string := NilZero.string_of_int (Z.to_int z).

(** [int(s)] for a Python str: [None] stands for ValueError. Modelled on
    an optional minus sign followed by decimal digits; surrounding
    whitespace, a plus sign and digit separators are not modelled. *)
Definition int_of_str (s : string) : option Z :=
  option_map Z.of_int (NilZero.int_of_string s).

(** [repr] of a type object, as [str.format] renders it. *)
Definition dtype_repr (t : dtype) : string :=
  match t with
  | int_t => "<class 'int'>"
  | str_t => "<class 'str'>"
  end.

(** ** The gspread model *)

Module gspread.

(** [gspread.Cell]: 1-based coordinates and a value. A cell fetched from
    the sheet carries the cell's text; the connector overwrites [value]
    with a table value. *)
Record Cell : Type := mkCell { row : Z; col : Z; value_ : value }.

(** A worksheet: the grid size and the text of its non-blank cells, keyed
    by 1-based (row, column). An absent key is a blank cell. *)
Record Worksheet : Type := mkWorksheet {
  row_count : nat;
  col_count : nat;
  cells : gmap (Z * Z) string
}.

(** A permission granted by [Spreadsheet.share]. *)
Record Permission : Type := mkPermission {
  perm_value : string;
  perm_type : string;
  perm_role : string
}.

(** A spreadsheet as the service stores it. Its id is its position in
    the drive. *)
Record SpreadsheetFile : Type := mkFile {
  title : string;
  sheets : list Worksheet;
  permissions : list Permission
}.

(** The handle [gspread.Spreadsheet] (the id) and the handle
    [gspread.Worksheet] (the spreadsheet id and the position of the tab). *)
Abbreviation Spreadsheet := nat (only parsing).
Abbreviation WorksheetRef := (nat * nat)%type (only parsing).

(** A library call made by the connector: the methods of the gspread
    client, spreadsheet and worksheet objects, and [astype] of pandas
    (logged with the name of the Series it is called on). *)
Inductive ApiCall : Type :=
| call_open (sheet_title : string)
| call_create (sheet_title : string)
| call_share (sheet : Spreadsheet) (val ptype role : string)
| call_get_worksheet (sheet : Spreadsheet) (index : Z)
| call_range (ws : WorksheetRef) (first_row first_col last_row last_col : Z)
| call_update_cells (ws : WorksheetRef) (cell_list : list Cell)
| call_update_cell (ws : WorksheetRef) (r c : Z) (v : value)
| call_get_all_records (ws : WorksheetRef) (head : Z)
| call_row_values (ws : WorksheetRef) (r : Z)
| call_astype (name : string) (t : dtype).

(** The state outside the process: the spreadsheets the service account
    can see, the calls made so far, and the lines logged. *)
Record World : Type := mkWorld {
  drive : list SpreadsheetFile;
  calls : list ApiCall;
  logged : list string
}.

End gspread.
Import gspread.

(** ** The monad of remote calls *)

Definition M (A : Type) : Type := World -> outcome A * World.

Definition ret {A} (a : A) : M A := fun w => (Ok a, w).

Definition raise {A} (e : exn) : M A := fun w => (Raise e, w).

Definition bind {A B} (m : M A) (k : A -> M B) : M B :=
  fun w =>
    match m w with
    | (Ok a, w') => k a w'
    | (Raise e, w') => (Raise e, w')
    end.

Declare Scope py_scope.
Delimit Scope py_scope with py.
Notation "x <- m ;; k" := (bind m (fun x => k))
  (at level 100, m at next level, right associativity) : py_scope.
Notation "m ;;; k" := (bind m (fun _ => k))
  (at level 100, k at level 200, right associativity) : py_scope.
Open Scope py_scope.

(** [for x in l: body x], collecting what each iteration yields. *)
Fixpoint for_each {A B} (l : list A) (body : A -> M B) : M (list B) :=
  match l with
  | [] => ret []
  | x :: l' => y <- body x ;; ys <- for_each l' body ;; ret (y :: ys)
  end.

(** Lifting a pure partial result. *)
Definition lift {A} (o : outcome A) : M A :=
  match o with
  | Ok a => ret a
  | Raise e => raise e
  end.

Definition record_call (c : ApiCall) : M unit :=
  fun w => (Ok tt, mkWorld (drive w) (calls w ++ [c]) (logged w)).

Definition logger_info (line : string) : M unit :=
  fun w => (Ok tt, mkWorld (drive w) (calls w) (logged w ++ [line])).

(** ** gspread: client and spreadsheet methods *)

Module Client.

(** A new spreadsheet has one blank worksheet of 1000 rows by 26
    columns. *)
Definition new_file (sheet_title : string) : SpreadsheetFile :=
  mkFile sheet_title [mkWorksheet 1000 26 ∅] [].

(** [Client.open(title)]: the first spreadsheet of that title among
    those the account can see, else SpreadsheetNotFound. *)
Definition open (sheet_title : string) : M Spreadsheet :=
  record_call (call_open sheet_title) ;;;
  fun w =>
    match list_find (fun f => title f = sheet_title) (drive w) with
    | Some (i, _) => (Ok i, w)
    | None => (Raise SpreadsheetNotFound, w)
    end.

(** [Client.create(title)]: a new spreadsheet, whose handle is
    returned. *)
Definition create (sheet_title : string) : M Spreadsheet :=
  record_call (call_create sheet_title) ;;;
  fun w =>
    (Ok (length (drive w)),
     mkWorld (drive w ++ [new_file sheet_title]) (calls w) (logged w)).

End Client.

Module Spreadsheet.

(** The [title] property of a handle: the title the service stores. *)
Definition title_of (w : World) (sheet : Spreadsheet) : option string :=
  title <$> drive w !! sheet.

(** The [id] of a handle, as text. *)
Definition id (sheet : Spreadsheet) : string :=
  str_of_int (Z.of_nat sheet).

Definition add_permission (p : Permission) (f : SpreadsheetFile)
  : SpreadsheetFile :=
  mkFile (title f) (sheets f) (permissions f ++ [p]).

(** [Spreadsheet.share(value, perm_type, role)]. *)
Definition share (sheet : Spreadsheet) (val ptype role : string) : M unit :=
  record_call (call_share sheet val ptype role) ;;;
  fun w =>
    match drive w !! sheet with
    | Some f =>
        (Ok tt,
         mkWorld (<[sheet := add_permission (mkPermission val ptype role) f]>
                    (drive w))
                 (calls w) (logged w))
    | None => (Raise APIError, w)
    end.

(** [l[i]] for a Python list: a negative index counts from the end. *)
Definition list_index {A} (l : list A) (i : Z) : option nat :=
  let n := Z.of_nat (length l) in
  if (0 <=? i) && (i <? n) then Some (Z.to_nat i)
  else if (- n <=? i) && (i <? 0) then Some (Z.to_nat (n + i))
  else None.

(** [Spreadsheet.get_worksheet(index)]: the tab at that 0-based
    position, [None] when there is none. *)
Definition get_worksheet (sheet : Spreadsheet) (index : Z)
  : M (option WorksheetRef) :=
  record_call (call_get_worksheet sheet index) ;;;
  fun w =>
    match drive w !! sheet with
    | Some f =>
        match list_index (sheets f) index with
        | Some k => (Ok (Some (sheet, k)), w)
        | None => (Ok None, w)
        end
    | None => (Raise APIError, w)
    end.

End Spreadsheet.

(** ** gspread: worksheet methods *)

Module Worksheet.

Definition lookup_ws (w : World) (ws : WorksheetRef) : option Worksheet :=
  match drive w !! ws.1 with
  | Some f => sheets f !! ws.2
  | None => None
  end.

Definition store_ws (w : World) (ws : WorksheetRef) (g : Worksheet) : World :=
  match drive w !! ws.1 with
  | Some f =>
      mkWorld (<[ws.1 := mkFile (title f) (<[ws.2 := g]> (sheets f))
                                (permissions f)]> (drive w))
              (calls w) (logged w)
  | None => w
  end.

(** The text of the cell at (r, c); blank is the empty string. *)
Definition cell_at (g : Worksheet) (r c : Z) : string :=
  default EmptyString (cells g !! (r, c)).

(** How the service shows a value sent to it as is: an int in decimal,
    a str unchanged. NaN cannot be sent. *)
Definition render (v : value) : option string :=
  match v with
  | VInt z => Some (str_of_int z)
  | VStr s => Some s
  | VNaN => None
  end.

(** [numericise]: text that reads as an int becomes that int, other
    text (the blank included) stays a str. The float branch of gspread
    is outside the value model. *)
Definition numericise (s : string) : value :=
  match int_of_str s with
  | Some z => VInt z
  | None => VStr s
  end.

Definition in_grid (g : Worksheet) (r c : Z) : bool :=
  (1 <=? r) && (r <=? Z.of_nat (row_count g)) &&
  (1 <=? c) && (c <=? Z.of_nat (col_count g)).

(** The positions of a rectangle, row by row. *)
Definition rect_positions (r1 c1 r2 c2 : Z) : list (Z * Z) :=
  r ← seqZ r1 (r2 - r1 + 1);
  c ← seqZ c1 (c2 - c1 + 1);
  [(r, c)].

(** The cells of a rectangle, each with the text the sheet holds there. *)
Definition rect_cells (g : Worksheet) (r1 c1 r2 c2 : Z) : list Cell :=
  (fun p => mkCell p.1 p.2 (VStr (cell_at g p.1 p.2)))
    <$> rect_positions r1 c1 r2 c2.

(** [Worksheet.range(first_row, first_col, last_row, last_col)]: a
    coordinate below 1 has no A1 label; a rectangle that leaves the
    grid is refused by the service. *)
Definition range (ws : WorksheetRef) (r1 c1 r2 c2 : Z) : M (list Cell) :=
  record_call (call_range ws r1 c1 r2 c2) ;;;
  fun w =>
    if (r1 <? 1) || (c1 <? 1) || (r2 <? 1) || (c2 <? 1)
    then (Raise IncorrectCellLabel, w)
    else
      match lookup_ws w ws with
      | Some g =>
          if in_grid g r2 c2
          then (Ok (rect_cells g r1 c1 r2 c2), w)
          else (Raise APIError, w)
      | None => (Raise APIError, w)
      end.

(** One cell written: [None] when the service refuses it. *)
Definition put_cell (g : Worksheet) (c : Cell) : option Worksheet :=
  match render (value_ c) with
  | Some s =>
      if in_grid g (row c) (col c)
      then Some (mkWorksheet (row_count g) (col_count g)
                             (<[(row c, col c) := s]> (cells g)))
      else None
  | None => None
  end.

Fixpoint put_cells (g : Worksheet) (cell_list : list Cell)
  : option Worksheet :=
  match cell_list with
  | [] => Some g
  | c :: rest =>
      match put_cell g c with
      | Some g' => put_cells g' rest
      | None => None
      end
  end.

(** [Worksheet.update_cells(cell_list)]: one request that writes every
    cell of the list at its coordinates; all of it or nothing. The
    lists the connector passes are full rectangles, for which the
    bounding box of the request is the list itself. *)
Definition update_cells (ws : WorksheetRef) (cell_list : list Cell)
  : M unit :=
  record_call (call_update_cells ws cell_list) ;;;
  fun w =>
    match cell_list with
    | [] => (Raise (ValueError "min() arg is an empty sequence"), w)
    | _ =>
        match lookup_ws w ws with
        | Some g =>
            match put_cells g cell_list with
            | Some g' => (Ok tt, store_ws w ws g')
            | None => (Raise APIError, w)
            end
        | None => (Raise APIError, w)
        end
    end.

(** [Worksheet.update_cell(row, col, value)]: one request for one
    cell. The connector does not use it. *)
Definition update_cell (ws : WorksheetRef) (r c : Z) (v : value) : M unit :=
  record_call (call_update_cell ws r c v) ;;;
  fun w =>
    match lookup_ws w ws with
    | Some g =>
        match put_cell g (mkCell r c v) with
        | Some g' => (Ok tt, store_ws w ws g')
        | None => (Raise APIError, w)
        end
    | None => (Raise APIError, w)
    end.

(** The largest k in 1..n with [p k], or 0. *)
Fixpoint last_such (p : nat -> bool) (n : nat) : nat :=
  match n with
  | O => O
  | S k => if p (S k) then S k else last_such p k
  end.

Definition nonblank (g : Worksheet) (r c : nat) : bool :=
  bool_decide (cell_at g (Z.of_nat r) (Z.of_nat c) ≠ EmptyString).

(** The column of the last non-blank cell of row r (0: a blank row). *)
Definition row_extent (g : Worksheet) (r : nat) : nat :=
  last_such (nonblank g r) (col_count g).

(** The last row that is not blank (0: a blank sheet). *)
Definition data_rows (g : Worksheet) : nat :=
  last_such (fun r => negb (row_extent g r =? 0)%nat) (row_count g).

(** The width of the data: the longest row. *)
Definition data_cols (g : Worksheet) : nat :=
  max_list (row_extent g <$> seq 1 (data_rows g)).

Definition row_text (g : Worksheet) (r : nat) (width : nat) : list string :=
  (fun c => cell_at g (Z.of_nat r) (Z.of_nat c)) <$> seq 1 width.

(** [get_all_values()]: the service leaves out trailing blank rows and
    the trailing blank cells of each row; gspread pads the rows to the
    longest one. *)
Definition all_values (g : Worksheet) : list (list string) :=
  (fun r => row_text g r (data_cols g)) <$> seq 1 (data_rows g).

(** [dict(zip(keys, row))]: a later pair overrides an earlier one of
    the same key. *)
Definition dict_zip (keys : list string) (vals : list value)
  : gmap string value :=
  list_to_map (reverse (zip keys vals)).

(** [Worksheet.get_all_records(head)], for [head >= 1]: one dict per
    row after the header row, the values numericised. *)
Definition get_all_records (ws : WorksheetRef) (head : Z)
  : M (list (gmap string value)) :=
  record_call (call_get_all_records ws head) ;;;
  fun w =>
    match lookup_ws w ws with
    | Some g =>
        let idx := Z.to_nat (head - 1) in
        let data := all_values g in
        match data !! idx with
        | None => (Ok [], w)
        | Some keys =>
            (Ok ((fun r => dict_zip keys (numericise <$> r))
                   <$> drop (S idx) data), w)
        end
    | None => (Raise APIError, w)
    end.

(** [Worksheet.row_values(row)], for [row >= 1]: the cells of the row up
    to its last non-blank one. *)
Definition row_values (ws : WorksheetRef) (r : Z) : M (list string) :=
  record_call (call_row_values ws r) ;;;
  fun w =>
    match lookup_ws w ws with
    | Some g =>
        (Ok (row_text g (Z.to_nat r) (row_extent g (Z.to_nat r))), w)
    | None => (Raise APIError, w)
    end.

End Worksheet.

(** ** The pandas model *)

Module pandas.

(** A DataFrame under the default index 0..n-1: the number of rows and
    the named columns in order, each holding one value per row. *)
Record DataFrame : Type := mkDataFrame {
  index_len : nat;
  data : list (string * list value)
}.

(** What [dataframe[name]] yields: a Series when one column has that
    name, a frame of all of them when several do. *)
Inductive selection : Type :=
| Series (name : string) (vals : list value)
| Frame (cols : list (string * list value)).

(** [dataframe.columns] *)
Definition columns (df : DataFrame) : list string := (data df).*1.

(** [dataframe.shape] *)
Definition shape (df : DataFrame) : Z * Z :=
  (Z.of_nat (index_len df), Z.of_nat (length (data df))).

(** [pandas.DataFrame(contents, columns=columns)] for a list of dicts:
    one row per dict, restricted to [columns]; a key a dict lacks gives
    NaN. *)
Definition from_records (contents : list (gmap string value))
    (cols : list string) : DataFrame :=
  mkDataFrame (length contents)
    ((fun c => (c, (fun rec => default VNaN (rec !! c)) <$> contents))
       <$> cols).

(** [dataframe[name]] *)
Definition getitem (df : DataFrame) (name : string) : outcome selection :=
  match filter (fun c => c.1 = name) (data df) with
  | [] => Raise (KeyError name)
  | [c] => Ok (Series name c.2)
  | cs => Ok (Frame cs)
  end.

(** [selection[k]] for an int k: on a Series the label k of the default
    index; on a frame a column label, which no int is. *)
Definition getitem_int (sel : selection) (k : Z) : outcome value :=
  match sel with
  | Series _ vals =>
      if (0 <=? k) && (k <? Z.of_nat (length vals))
      then match vals !! Z.to_nat k with
           | Some v => Ok v
           | None => Raise (KeyError (str_of_int k))
           end
      else Raise (KeyError (str_of_int k))
  | Frame _ => Raise (KeyError (str_of_int k))
  end.

(** Casting one value: [int(v)] or [str(v)]. *)
Definition cast_value (t : dtype) (v : value) : outcome value :=
  match t, v with
  | int_t, VInt z => Ok (VInt z)
  | int_t, VStr s =>
      match int_of_str s with
      | Some z => Ok (VInt z)
      | None =>
          Raise (ValueError
                   ("invalid literal for int() with base 10: '" +:+ s +:+ "'"))
      end
  | int_t, VNaN => Raise (ValueError "cannot convert float NaN to integer")
  | str_t, VInt z => Ok (VStr (str_of_int z))
  | str_t, VStr s => Ok (VStr s)
  | str_t, VNaN => Ok (VStr "nan")
  end.

Fixpoint cast_values (t : dtype) (vals : list value) : outcome (list value) :=
  match vals with
  | [] => Ok []
  | v :: rest =>
      match cast_value t v with
      | Ok v' =>
          match cast_values t rest with
          | Ok rest' => Ok (v' :: rest')
          | Raise e => Raise e
          end
      | Raise e => Raise e
      end
  end.

Fixpoint cast_cols (t : dtype) (cols : list (string * list value))
  : outcome (list (string * list value)) :=
  match cols with
  | [] => Ok []
  | (n, vals) :: rest =>
      match cast_values t vals with
      | Ok vals' =>
          match cast_cols t rest with
          | Ok rest' => Ok ((n, vals') :: rest')
          | Raise e => Raise e
          end
      | Raise e => Raise e
      end
  end.

(** The name [astype] is logged under. *)
Definition selection_name (sel : selection) : string :=
  match sel with
  | Series name _ => name
  | Frame cols => default EmptyString (head (cols.*1))
  end.

(** [selection.astype(dtype)] *)
Definition astype (sel : selection) (t : dtype) : M selection :=
  record_call (call_astype (selection_name sel) t) ;;;
  lift (match sel with
        | Series name vals =>
            match cast_values t vals with
            | Ok vals' => Ok (Series name vals')
            | Raise e => Raise e
            end
        | Frame cols =>
            match cast_cols t cols with
            | Ok cols' => Ok (Frame cols')
            | Raise e => Raise e
            end
        end).

(** Replacing, in order, the columns called [name] by the given ones. *)
Fixpoint assign (name : string) (new : list (list value))
    (cols : list (string * list value)) : list (string * list value) :=
  match cols with
  | [] => []
  | (n, vals) :: rest =>
      if decide (n = name)
      then match new with
           | vals' :: new' => (n, vals') :: assign name new' rest
           | [] => (n, vals) :: assign name [] rest
           end
      else (n, vals) :: assign name new rest
  end.

(** [dataframe[name] = selection]: a Series replaces every column of
    that name, or is appended when there is none; a frame replaces them
    one by one. *)
Definition setitem (df : DataFrame) (name : string) (sel : selection)
  : DataFrame :=
  match sel with
  | Series _ vals =>
      if decide (name ∈ columns df)
      then mkDataFrame (index_len df)
             ((fun c => if decide (c.1 = name) then (c.1, vals) else c)
                <$> data df)
      else mkDataFrame (index_len df) (data df ++ [(name, vals)])
  | Frame cols =>
      mkDataFrame (index_len df) (assign name (cols.*2) (data df))
  end.

End pandas.

(** ** Python objects and control *)

(** [try: body except ...: handler]: the handler chooses the exceptions it
    catches; the state reached when the exception was raised is kept. *)
Definition try_except {A} (body : M A) (handler : exn -> option (M A)) : M A :=
  fun w =>
    match body w with
    | (Ok a, w') => (Ok a, w')
    | (Raise e, w') =>
        match handler e with
        | Some h => h w'
        | None => (Raise e, w')
        end
    end.

(** A method called on what [get_worksheet] returned: on [None] the
    attribute lookup fails. *)
Definition method {A} (worksheet : option WorksheetRef) (name : string)
    (call : WorksheetRef -> M A) : M A :=
  match worksheet with
  | Some ws => call ws
  | None =>
      raise (AttributeError
               ("'NoneType' object has no attribute '" +:+ name +:+ "'"))
  end.

(** [dict[key]] *)
Definition dict_getitem (d : gmap Z string) (key : Z) : outcome string :=
  match d !! key with
  | Some v => Ok v
  | None => Raise (KeyError (str_of_int key))
  end.

(** [enumerate(l)] *)
Definition enumerate {A} (l : list A) : list (Z * A) :=
  imap (fun i x => (Z.of_nat i, x)) l.

(** The service-account credentials read from the key file. *)
Record Credentials : Type := mkCredentials {
  service_account_email : string;
  scopes : list string
}.

(** The objects bound to attributes of a connector. *)
Inductive pyobj : Type :=
| obj_none
| obj_str (s : string)
| obj_list (l : list string)
| obj_client (auth : Credentials)
| obj_function (name : string).

(** Truth value of an object. *)
Definition py_bool (o : pyobj) : bool :=
  match o with
  | obj_none => false
  | obj_str s => bool_decide (s ≠ EmptyString)
  | obj_list l => bool_decide (l ≠ [])
  | _ => true
  end.

Definition type_name (o : pyobj) : string :=
  match o with
  | obj_none => "NoneType"
  | obj_str _ => "str"
  | obj_list _ => "list"
  | obj_client _ => "Client"
  | obj_function _ => "function"
  end.

(** [o._service_account_email]: none of the objects above has it. *)
Definition get_service_account_email (o : pyobj) : outcome string :=
  Raise (AttributeError
           ("'" +:+ type_name o +:+
            "' object has no attribute '_service_account_email'")).

(** The e-mail address [share] is given. *)
Definition email_address (o : pyobj) : outcome string :=
  match o with
  | obj_str s => Ok s
  | _ => Raise APIError
  end.

(** ** GoogleSheetConnector *)

Module GoogleSheetConnector.
Import pandas.

Definition SCOPES : list string :=
  ["https://spreadsheets.google.com/feeds";
   "https://www.googleapis.com/auth/drive"].

(** An instance: the attributes [__init__] has bound on [self]. *)
Record t : Type := mkConnector { instance_dict : gmap string pyobj }.

(** The attributes of the class. *)
Definition class_dict : gmap string pyobj :=
  list_to_map
    [("SCOPES", obj_list SCOPES);
     ("__init__", obj_function "__init__");
     ("open", obj_function "open");
     ("_shape_to_range", obj_function "_shape_to_range");
     ("write", obj_function "write");
     ("read", obj_function "read")].

(** [self.name] *)
Definition getattr (self : t) (name : string) : outcome pyobj :=
  match instance_dict self !! name with
  | Some o => Ok o
  | None =>
      match class_dict !! name with
      | Some o => Ok o
      | None =>
          Raise (AttributeError
                   ("'GoogleSheetConnector' object has no attribute '"
                    +:+ name +:+ "'"))
      end
  end.

(** [__init__(secret_key_path, share_with=None)]. The key file is taken
    as read: [key] is the credentials it holds. *)
Definition __init__ (key : Credentials) (share_with : option string) : t :=
  let credentials := key in
  let scoped_credentials :=
    mkCredentials (service_account_email credentials) SCOPES in
  mkConnector
    (<["share_with" := match share_with with
                       | Some s => obj_str s
                       | None => obj_none
                       end]>
       (<["client" := obj_client scoped_credentials]> ∅)).

Definition not_found_message (sheet_title email : string) : string :=
  "Spreadsheet " +:+ sheet_title +:+
  " not found. Try sharing spreadsheet with " +:+ email.

Definition unset_message : string :=
  "Creating sheets is not possible if " +:+ dquote +:+ "share_with"
  +:+ dquote +:+ " is unset.".

Definition created_message (sheet_id : string) : string :=
  "Created sheet " +:+ dquote +:+ sheet_id +:+ dquote +:+ dquote +:+ ".".

(** [open(sheet_title, create=False)]. The calls on [self.client] act
    on the world. *)
Definition open (self : t) (sheet_title : string) (create : bool)
  : M Spreadsheet :=
  found <-
    try_except
      (sheet <- Client.open sheet_title ;; ret (Some sheet))
      (fun e =>
         match e with
         | SpreadsheetNotFound =>
             Some (if negb create
                   then
                     creds <- lift (getattr self "creds") ;;
                     email <- lift (get_service_account_email creds) ;;
                     raise (Exception (not_found_message sheet_title email))
                   else ret None)
         | _ => None
         end) ;;
  match found with
  | Some sheet => ret sheet
  | None =>
      share_with <- lift (getattr self "share_with") ;;
      if negb (py_bool share_with)
      then raise (Exception unset_message)
      else
        sheet <- Client.create sheet_title ;;
        grantee <- lift (email_address share_with) ;;
        Spreadsheet.share sheet grantee "user" "writer" ;;;
        logger_info (created_message (Spreadsheet.id sheet)) ;;;
        ret sheet
  end.

(** [_shape_to_range(dataframe, headers=True)] *)
Definition _shape_to_range (dataframe : DataFrame) (headers : bool)
  : Z * Z * Z * Z :=
  let '(row_count, col_count) := shape dataframe in
  if headers
  then (1, 1, row_count + 1, col_count)
  else (1, 1, row_count, col_count).

Definition set_value (cell : Cell) (v : value) : Cell :=
  mkCell (row cell) (col cell) v.

(** The body of the loop of [write], for one cell. *)
Definition fill_cell (dataframe : DataFrame) (col_indexes : gmap Z string)
    (cell : Cell) : M Cell :=
  if row cell =? 1
  then
    name <- lift (dict_getitem col_indexes (col cell - 1)) ;;
    ret (set_value cell (VStr name))
  else
    name <- lift (dict_getitem col_indexes (col cell - 1)) ;;
    column <- lift (getitem dataframe name) ;;
    v <- lift (getitem_int column (row cell - 2)) ;;
    ret (set_value cell v).

(** [write(sheet, dataframe, worksheet_number=1)] *)
Definition write (self : t) (sheet : Spreadsheet) (dataframe : DataFrame)
    (worksheet_number : Z) : M unit :=
  worksheet <- Spreadsheet.get_worksheet sheet (worksheet_number - 1) ;;
  let col_indexes : gmap Z string :=
    list_to_map (reverse (enumerate (columns dataframe))) in
  let '(first_row, first_col, last_row, last_col) :=
    _shape_to_range dataframe true in
  cell_list <-
    method worksheet "range"
      (fun ws => Worksheet.range ws first_row first_col last_row last_col) ;;
  cell_list <- for_each cell_list (fill_cell dataframe col_indexes) ;;
  method worksheet "update_cells"
    (fun ws => Worksheet.update_cells ws cell_list).

Definition key_message (col : string) : string :=
  "Dictionary dtypes's key '" +:+ col +:+ "' was not found in sheet.".

Definition typecast_message (col : string) (t : dtype) : string :=
  "Column " +:+ dquote +:+ col +:+ dquote +:+
  " could not be typecast as " +:+ dtype_repr t.

(** The [try] statement of the loop of [read]: the cast of one column,
    a ValueError turned into the typecast error. *)
Definition cast_column (dataframe : DataFrame) (col : string) (dtype : dtype)
  : M DataFrame :=
  try_except
    (column <- lift (getitem dataframe col) ;;
     column <- astype column dtype ;;
     ret (setitem dataframe col column))
    (fun e =>
       match e with
       | ValueError _ => Some (raise (Exception (typecast_message col dtype)))
       | _ => None
       end).

(** The loop of [read] over [data_types.items()]. *)
Fixpoint cast_loop (items : list (string * dtype)) (dataframe : DataFrame)
  : M DataFrame :=
  match items with
  | [] => ret dataframe
  | (col, dtype) :: rest =>
      if bool_decide (col ∉ columns dataframe)
      then raise (KeyError (key_message col))
      else
        dataframe <- cast_column dataframe col dtype ;;
        cast_loop rest dataframe
  end.

(** [read(sheet, worksheet_number=1, data_types=None)]. The dict
    [data_types] is the list of its items in iteration order. *)
Definition read (self : t) (sheet : Spreadsheet) (worksheet_number : Z)
    (data_types : option (list (string * dtype))) : M DataFrame :=
  worksheet <- Spreadsheet.get_worksheet sheet (worksheet_number - 1) ;;
  contents <-
    method worksheet "get_all_records"
      (fun ws => Worksheet.get_all_records ws 1) ;;
  header <-
    method worksheet "row_values" (fun ws => Worksheet.row_values ws 1) ;;
  let columns := filter (fun col => col ≠ EmptyString) header in
  let dataframe := from_records contents columns in
  match data_types with
  | Some items => cast_loop items dataframe
  | None => ret dataframe
  end.

End GoogleSheetConnector.

(** * Specification vocabulary and example data *)

Import pandas GoogleSheetConnector.

(** A drive with one spreadsheet, used by the examples below. *)
Definition budget_drive : World :=
  mkWorld [mkFile "Budget" [mkWorksheet 4 3 ∅] []] [] [].

Definition robot : Credentials :=
  mkCredentials "robot@project.iam.gserviceaccount.com" [].

(** The table as the spec words it: the name of the column at a 0-based
    position, the value at a 0-based (row, column), and the value a cell
    at the 1-based sheet position (r, c) is to receive. *)
Definition column_name (df : DataFrame) (j : Z) : option string :=
  if 0 <=? j then columns df !! Z.to_nat j else None.

Definition table_value (df : DataFrame) (i j : Z) : option value :=
  if (0 <=? i) && (0 <=? j)
  then match data df !! Z.to_nat j with
       | Some column => column.2 !! Z.to_nat i
       | None => None
       end
  else None.

Definition claimed_value (df : DataFrame) (r c : Z) : option value :=
  if r =? 1 then VStr <$> column_name df (c - 1)
  else table_value df (r - 2) (c - 1).

(** The positions of the rectangle rows 1..nrows by columns 1..ncols, row
    by row. *)
Definition rectangle (nrows ncols : Z) : list (Z * Z) :=
  r ← seqZ 1 nrows; c ← seqZ 1 ncols; [(r, c)].

(** The state after one more call is logged. *)
Definition logging (w : World) (c : ApiCall) : World :=
  mkWorld (drive w) (calls w ++ [c]) (logged w).

(** A well-formed frame: every column has one value per row. *)
Definition well_formed (df : DataFrame) : Prop :=
  Forall (fun column => length column.2 = index_len df) (data df).

Definition position (cell : Cell) : Z * Z := (row cell, col cell).

Definition column_lookup_spec (names : list string) (j : Z) (name : string)
  : Prop :=
  0 <= j /\ names !! Z.to_nat j = Some name.

(** The cell as the loop of [write] leaves it. *)
Definition filled (df : DataFrame) (cell : Cell) : Cell :=
  set_value cell (default VNaN (claimed_value df (row cell) (col cell))).

(** Counting the update calls in a log. *)
Definition is_batch_update (c : ApiCall) : bool :=
  match c with call_update_cells _ _ => true | _ => false end.

Definition is_single_update (c : ApiCall) : bool :=
  match c with call_update_cell _ _ _ _ => true | _ => false end.

Definition count_calls (p : ApiCall -> bool) (l : list ApiCall) : nat :=
  length (List.filter p l).

(** The header cells of a table, left to right. *)
Definition header_cells (names : list string) : list Cell :=
  imap (fun j name => mkCell 1 (Z.of_nat j + 1) (VStr name)) names.

(** The records [get_all_records(head=1)] yields for a worksheet. *)
Definition sheet_records (g : Worksheet) : list (gmap string value) :=
  match Worksheet.all_values g !! 0%nat with
  | None => []
  | Some keys =>
      (fun r => Worksheet.dict_zip keys (Worksheet.numericise <$> r))
        <$> drop 1 (Worksheet.all_values g)
  end.

(** The table [read] builds from a worksheet, before any cast. *)
Definition read_table (g : Worksheet) : DataFrame :=
  from_records (sheet_records g)
    (filter (fun col => col ≠ EmptyString)
       (Worksheet.row_text g 1 (Worksheet.row_extent g 1))).

(** The header row of a worksheet: the text of every cell of row 1. *)
Definition header_row (g : Worksheet) : list string :=
  Worksheet.row_text g 1 (col_count g).

(** The state after the three calls [read] makes on a worksheet. *)
Definition after_read (w : World) (sheet : nat) (n : Z) (k : nat) : World :=
  logging
    (logging (logging w (call_get_worksheet sheet (n - 1)))
       (call_get_all_records (sheet, k) 1))
    (call_row_values (sheet, k) 1).

(** A value the type can represent: the cast of it succeeds. *)
Definition representable (t : dtype) (v : value) : Prop :=
  exists v', cast_value t v = Ok v'.

(** The columns of a frame that bear a name. *)
Definition named (col : string) (df : DataFrame) : list (string * list value) :=
  filter (fun c => c.1 = col) (data df).

(** Every value under the name [col] can be represented in [t]. *)
Definition column_representable (df : DataFrame) (col : string) (t : dtype)
  : Prop :=
  Forall (fun c => Forall (representable t) c.2) (named col df).

(** An entry of [data_types] the loop passes: its column is there and
    its cast succeeds. *)
Definition passes (df : DataFrame) (item : string * dtype) : Prop :=
  item.1 ∈ columns df /\ column_representable df item.1 item.2.

(** The [astype] calls of a list of entries. *)
Definition astype_calls (items : list (string * dtype)) : list ApiCall :=
  (fun item => call_astype item.1 item.2) <$> items.

(** Two column lists that agree on names, and on every column not
    called [col]. *)
Definition same_outside (col : string)
    (old new : list (string * list value)) : Prop :=
  Forall2 (fun x y => x.1 = y.1 /\ (x.1 ≠ col -> x = y)) old new.

(** The state after some more calls are logged. *)
Definition logging_all (w : World) (l : list ApiCall) : World :=
  mkWorld (drive w) (calls w ++ l) (logged w).

(** A drive whose one spreadsheet has a worksheet with two named columns
    and two records, the second with a word where an age is expected. *)
Definition people_sheet : Worksheet :=
  mkWorksheet 4 3
    (list_to_map
       [((1, 1), "name"); ((1, 2), "age");
        ((2, 1), "ann"); ((2, 2), "31");
        ((3, 1), "bob"); ((3, 2), "unknown")]).

Definition people_drive : World :=
  mkWorld [mkFile "People" [people_sheet] []] [] [].

Definition people_table : DataFrame :=
  mkDataFrame 2
    [("name", [VStr "ann"; VStr "bob"]);
     ("age", [VInt 31; VStr "unknown"])].

(** The blank worksheet of [budget_drive] and its spreadsheet. *)
Definition budget_sheet : Worksheet := mkWorksheet 4 3 ∅.

Definition budget_file : SpreadsheetFile := mkFile "Budget" [budget_sheet] [].

(** A table with the two columns of [people_table] and no rows. *)
Definition empty_people : DataFrame := mkDataFrame 0 [("name", []); ("age", [])].

(** ** Vocabulary of the round trip *)

(** A value that survives the sheet: it can be sent, and the text the
    sheet shows for it reads back as the same value. *)
Definition stable (v : value) : Prop :=
  exists s, Worksheet.render v = Some s /\ Worksheet.numericise s = v.

(** The last row of the table shows in the sheet: some value of it is
    not the empty string (or the table has no rows). *)
Definition last_row_shows (df : DataFrame) : Prop :=
  index_len df = 0%nat \/
  exists column v,
    column ∈ data df /\
    column.2 !! (index_len df - 1)%nat = Some v /\
    v ≠ VStr EmptyString.

(** Every cell of the grid outside the rectangle is blank. *)
Definition blank_outside (g : Worksheet) (nrows ncols : Z) : Prop :=
  forall r c,
    Worksheet.in_grid g r c = true ->
    (r, c) ∉ rectangle nrows ncols ->
    Worksheet.cell_at g r c = EmptyString.

(** The conditions of the round trip on the table. *)
Record round_trips (df : DataFrame) : Prop := mkRoundTrips {
  rt_well_formed : well_formed df;
  rt_distinct : NoDup (columns df);
  rt_named : Forall (fun name => name ≠ EmptyString) (columns df);
  rt_stable : Forall (fun column => Forall stable column.2) (data df);
  rt_last_row : last_row_shows df
}.

(** Row i of a table, across its columns. *)
Definition table_row (df : DataFrame) (i : nat) : list value :=
  (fun c => default VNaN (c.2 !! i)) <$> data df.

(** A table of one column and one row. *)
Definition one_name : DataFrame := mkDataFrame 1 [("name", [VStr "zed"])].

(** Tables that break one condition of the round trip each: a column
    with the empty name, a string that reads as a number, a last row of
    empty strings. *)
Definition unnamed_column : DataFrame :=
  mkDataFrame 1 [("name", [VStr "zed"]); (EmptyString, [VStr "x"])].

Definition numeric_text : DataFrame := mkDataFrame 1 [("code", [VStr "007"])].

Definition blank_last_row : DataFrame :=
  mkDataFrame 2 [("name", [VStr "zed"; VStr EmptyString])].

(** ** Vocabulary of the further properties *)

(** A table whose every value can be sent: none is NaN. *)
Definition sendable (df : DataFrame) : Prop :=
  Forall (fun column => Forall (fun v => v ≠ VNaN) column.2) (data df).

(** The drive with one worksheet replaced. *)
Definition with_worksheet (files : list SpreadsheetFile) (sheet k : nat)
    (f : SpreadsheetFile) (g : Worksheet) : list SpreadsheetFile :=
  <[sheet := mkFile (title f) (<[k := g]> (sheets f)) (permissions f)]> files.

(** A table with the name of its first column used twice. *)
Definition twice_named : DataFrame :=
  mkDataFrame 1 [("name", [VStr "ann"]); ("name", [VStr "bob"])].

(** A table with rows and no column. *)
Definition no_columns : DataFrame := mkDataFrame 2 [].

(** A table of five rows, too long for the four rows of [budget_sheet]. *)
Definition long_table : DataFrame :=
  mkDataFrame 5 [("n", [VInt 1; VInt 2; VInt 3; VInt 4; VInt 5])].

(** A second table of the shape of [people_table]. *)
Definition other_people : DataFrame :=
  mkDataFrame 2
    [("city", [VStr "oslo"; VStr "rome"]);
     ("zip", [VInt 150; VInt 184])].

(** * Properties *)

(** A decidable closed goal, settled by evaluation. *)
Ltac decide_by_compute :=
  refine (bool_decide_unpack _ _); vm_compute; exact I.

(** ** open *)

Section open_facts.

Variable key : Credentials.
Variable share_with : option string.

Let self : GoogleSheetConnector.t := __init__ key share_with.

Lemma getattr_creds :
  getattr self "creds" =
  Raise (AttributeError
           "'GoogleSheetConnector' object has no attribute 'creds'").
Proof. reflexivity. Qed.

Lemma getattr_share_with :
  getattr self "share_with" =
  Ok (match share_with with Some s => obj_str s | None => obj_none end).
Proof. reflexivity. Qed.

Lemma insert_snoc {A} (l : list A) (x y : A) :
  <[length l := y]> (l ++ [x]) = l ++ [y].
Proof. induction l as [|a l IH]; simpl; [done | by rewrite IH]. Qed.

Lemma lookup_snoc {A} (l : list A) (x : A) :
  (l ++ [x]) !! length l = Some x.
Proof. induction l as [|a l IH]; simpl; done. Qed.

(** A title no accessible spreadsheet bears is not found. *)
Lemma Client_open_missing sheet_title w :
  sheet_title ∉ title <$> drive w ->
  Client.open sheet_title w =
  (Raise SpreadsheetNotFound,
   mkWorld (drive w) (calls w ++ [call_open sheet_title]) (logged w)).
Proof.
  intros Hno. unfold Client.open, bind, record_call. simpl.
  destruct (list_find _ (drive w)) as [[i f]|] eqn:Hfind; [|done].
  apply list_find_Some in Hfind as (Hi & Ht & _).
  exfalso. apply Hno. rewrite <- Ht.
  apply list_elem_of_fmap_2. by eapply list_elem_of_lookup_2.
Qed.

(** Without [create], a missing title ends in the failed lookup of
    [self.creds], whatever the drive holds; nothing is created. *)
Lemma open_missing_no_create sheet_title w :
  sheet_title ∉ title <$> drive w ->
  open self sheet_title false w =
  (Raise (AttributeError
            "'GoogleSheetConnector' object has no attribute 'creds'"),
   mkWorld (drive w) (calls w ++ [call_open sheet_title]) (logged w)).
Proof.
  intros Hno. unfold open, try_except, bind at 1.
  unfold bind at 1. rewrite Client_open_missing by done. reflexivity.
Qed.

End open_facts.


(** C3. The spec asks that [open(title, create=False)] on a title that
    is not found fail with an error naming the title and the service
    account, and create nothing. The code reads [self.creds], which
    [__init__] never binds: on the title Ledger, absent from the drive,
    the call ends in AttributeError about [creds] instead (the drive is
    left as it was). *)
Theorem open_not_found_reads_unbound_creds :
  open (__init__ robot (Some "owner@example.org")) "Ledger" false budget_drive
  = (Raise (AttributeError
              "'GoogleSheetConnector' object has no attribute 'creds'"),
     mkWorld (drive budget_drive) [call_open "Ledger"] []).
Proof. reflexivity. Qed.

(** C7. For a title that is not found, [open(title, create=True)] on a
    connector built without [share_with] fails with the configuration
    error; the drive is unchanged and the only call made is the lookup,
    so no creation call is issued. *)
Theorem open_create_unset_share_with key sheet_title w :
  sheet_title ∉ title <$> drive w ->
  exists w',
    open (__init__ key None) sheet_title true w =
      (Raise (Exception unset_message), w') /\
    drive w' = drive w /\
    calls w' = calls w ++ [call_open sheet_title].
Proof.
  intros Hno. eexists. split.
  - unfold open, try_except, bind at 1. unfold bind at 1.
    rewrite Client_open_missing by done. reflexivity.
  - done.
Qed.

Lemma open_create_unset_share_with_witness :
  ("Ledger" ∉ title <$> drive budget_drive) /\
  exists w',
    open (__init__ robot None) "Ledger" true budget_drive =
      (Raise (Exception unset_message), w') /\
    drive w' = drive budget_drive /\
    calls w' = calls budget_drive ++ [call_open "Ledger"].
Proof.
  assert (H : "Ledger" ∉ title <$> drive budget_drive).
  { simpl. intros Hin. apply list_elem_of_singleton in Hin. discriminate. }
  split; [exact H | exact (open_create_unset_share_with robot "Ledger" budget_drive H)].
Defined.

(** C6. For a title that is not found and a connector built with a
    grantee, [open(title, create=True)] returns the handle of one new
    spreadsheet appended to the drive under that title; the calls made
    are the lookup, one creation and one share of that spreadsheet with
    the grantee as a user with the writer role; the title of the
    returned handle is the requested one. *)
Theorem open_create_shares_with_grantee key grantee sheet_title w :
  sheet_title ∉ title <$> drive w ->
  grantee ≠ EmptyString ->
  exists sheet f w',
    open (__init__ key (Some grantee)) sheet_title true w = (Ok sheet, w') /\
    drive w' = drive w ++ [f] /\
    title f = sheet_title /\
    permissions f = [mkPermission grantee "user" "writer"] /\
    calls w' = calls w ++ [call_open sheet_title; call_create sheet_title;
                           call_share sheet grantee "user" "writer"] /\
    Spreadsheet.title_of w' sheet = Some sheet_title.
Proof.
  intros Hno Hg.
  exists (length (drive w)),
    (Spreadsheet.add_permission (mkPermission grantee "user" "writer")
       (Client.new_file sheet_title)).
  eexists. split.
  - unfold open, try_except, bind at 1. unfold bind at 1.
    rewrite Client_open_missing by done. cbn [negb ret].
    unfold bind at 1. rewrite getattr_share_with. cbn [lift ret py_bool].
    rewrite bool_decide_true by done. cbn [negb].
    unfold bind, Client.create, Spreadsheet.share, record_call, logger_info,
      ret, lift, email_address. cbn.
    rewrite lookup_snoc. reflexivity.
  - cbn. rewrite <- !app_assoc. cbn. rewrite insert_snoc.
    repeat split.
    unfold Spreadsheet.title_of. cbn. by rewrite lookup_snoc.
Qed.

Lemma open_create_shares_with_grantee_witness :
  ("Ledger" ∉ title <$> drive budget_drive) /\
  "owner@example.org" ≠ EmptyString /\
  exists sheet f w',
    open (__init__ robot (Some "owner@example.org")) "Ledger" true budget_drive
      = (Ok sheet, w') /\
    drive w' = drive budget_drive ++ [f] /\
    title f = "Ledger" /\
    permissions f = [mkPermission "owner@example.org" "user" "writer"] /\
    calls w' = calls budget_drive ++
               [call_open "Ledger"; call_create "Ledger";
                call_share sheet "owner@example.org" "user" "writer"] /\
    Spreadsheet.title_of w' sheet = Some "Ledger".
Proof.
  assert (H : "Ledger" ∉ title <$> drive budget_drive).
  { simpl. intros Hin. apply list_elem_of_singleton in Hin. discriminate. }
  assert (G : "owner@example.org" ≠ EmptyString) by discriminate.
  split; [exact H | split; [exact G |]].
  exact (open_create_shares_with_grantee robot "owner@example.org" "Ledger"
           budget_drive H G).
Defined.

(** ** write *)


Lemma bind_ok {A B} (m : M A) (k : A -> M B) w a w' :
  m w = (Ok a, w') -> bind m k w = k a w'.
Proof. intros H. unfold bind. by rewrite H. Qed.

Lemma bind_raise {A B} (m : M A) (k : A -> M B) w e w' :
  m w = (Raise e, w') -> bind m k w = (Raise e, w').
Proof. intros H. unfold bind. by rewrite H. Qed.

(** A loop whose body leaves the state alone is a map. *)
Lemma for_each_pure {A B} (l : list A) (body : A -> M B) (f : A -> B) w :
  Forall (fun x => body x w = (Ok (f x), w)) l ->
  for_each l body w = (Ok (f <$> l), w).
Proof.
  induction 1 as [|x l Hx _ IH]; [done|].
  cbn [for_each]. rewrite (bind_ok _ _ _ _ _ Hx).
  unfold bind at 1. rewrite IH. reflexivity.
Qed.

Section dict_facts.

Context {A : Type}.

Lemma enumerate_lookup (l : list A) (i : nat) :
  enumerate l !! i = (fun x => (Z.of_nat i, x)) <$> l !! i.
Proof. unfold enumerate. by rewrite list_lookup_imap. Qed.

Lemma enumerate_keys_NoDup (l : list A) : NoDup (enumerate l).*1.
Proof.
  apply NoDup_alt. intros i j k Hi Hj.
  rewrite list_lookup_fmap, enumerate_lookup in Hi.
  rewrite list_lookup_fmap, enumerate_lookup in Hj.
  destruct (l !! i); [|done]. destruct (l !! j); [|done].
  simpl in *. simplify_eq. lia.
Qed.

End dict_facts.


(** [col_indexes[j]] is the name of the column at position j. *)
Lemma col_indexes_lookup (names : list string) (j : Z) (name : string) :
  column_lookup_spec names j name ->
  dict_getitem (list_to_map (reverse (enumerate names))) j = Ok name.
Proof.
  intros [Hj Hname]. unfold dict_getitem.
  erewrite (elem_of_list_to_map_1 (reverse (enumerate names))); [done | |].
  - rewrite fmap_reverse, reverse_Permutation. apply enumerate_keys_NoDup.
  - apply elem_of_reverse. apply list_elem_of_lookup.
    exists (Z.to_nat j). rewrite enumerate_lookup, Hname. simpl.
    by rewrite Z2Nat.id.
Qed.

Lemma filter_name_absent (name : string) (l : list (string * list value)) :
  name ∉ l.*1 -> filter (fun c => c.1 = name) l = [].
Proof.
  induction l as [|c l IH]; [done|]. cbn [fmap list_fmap].
  rewrite not_elem_of_cons. intros [Hne Hl].
  rewrite filter_cons_False by (intros Heq; by apply Hne). by apply IH.
Qed.

Lemma filter_name_unique (l : list (string * list value)) j name vals :
  NoDup l.*1 -> l !! j = Some (name, vals) ->
  filter (fun c => c.1 = name) l = [(name, vals)].
Proof.
  revert j. induction l as [|c l IH]; intros j Hnd Hj; [done|].
  cbn [fmap list_fmap] in Hnd. apply NoDup_cons in Hnd as [Hc Hnd].
  destruct j as [|j]; simpl in Hj.
  - simplify_eq. rewrite filter_cons_True by done.
    by rewrite filter_name_absent.
  - rewrite filter_cons_False; [by eapply IH|].
    intros Heq. apply Hc. rewrite Heq.
    apply (list_elem_of_fmap_2 fst _ (name, vals)).
    by eapply list_elem_of_lookup_2.
Qed.

(** With distinct names, [dataframe[name]] is the Series of that
    column. *)
Lemma getitem_Series df j name vals :
  NoDup (columns df) -> data df !! j = Some (name, vals) ->
  getitem df name = Ok (Series name vals).
Proof.
  intros Hnd Hj. unfold getitem.
  by rewrite (filter_name_unique _ j name vals).
Qed.

Section fill.

Variable df : DataFrame.
Hypothesis Hwf : well_formed df.
Hypothesis Hnd : NoDup (columns df).

Let col_indexes : gmap Z string :=
  list_to_map (reverse (enumerate (columns df))).

(** Inside the rectangle of the table, the loop body sets the cell to
    the value the spec words, and leaves the state alone. *)
Lemma fill_cell_inside cell w :
  1 <= row cell <= Z.of_nat (index_len df) + 1 ->
  1 <= col cell <= Z.of_nat (length (data df)) ->
  is_Some (claimed_value df (row cell) (col cell)) /\
  fill_cell df col_indexes cell w = (Ok (filled df cell), w).
Proof.
  intros Hr Hc.
  destruct (lookup_lt_is_Some_2 (data df) (Z.to_nat (col cell - 1)))
    as [[name vals] Hcol]; [lia|].
  assert (Hname : columns df !! Z.to_nat (col cell - 1) = Some name).
  { unfold columns. by rewrite list_lookup_fmap, Hcol. }
  assert (Hidx : dict_getitem col_indexes (col cell - 1) = Ok name).
  { apply col_indexes_lookup. split; [lia | done]. }
  unfold fill_cell, filled, claimed_value, column_name.
  destruct (row cell =? 1) eqn:Hrow.
  - rewrite Hidx. cbn [lift]. unfold bind, ret.
    replace (0 <=? col cell - 1) with true by (symmetry; apply Z.leb_le; lia).
    rewrite Hname. cbn. eauto.
  - apply Z.eqb_neq in Hrow.
    assert (Hlen : length vals = index_len df).
    { eapply (Forall_lookup_1 _ _ _ _ Hwf Hcol). }
    destruct (lookup_lt_is_Some_2 vals (Z.to_nat (row cell - 2)))
      as [v Hv]; [lia|].
    unfold table_value.
    replace ((0 <=? row cell - 2) && (0 <=? col cell - 1)) with true
      by (symmetry; apply andb_true_intro; split; apply Z.leb_le; lia).
    rewrite Hcol. cbn [snd]. rewrite Hv. split; [eauto|].
    rewrite Hidx. cbn [lift]. unfold bind at 1, ret at 1.
    rewrite (getitem_Series df _ name vals Hnd Hcol). cbn [lift].
    unfold bind at 1, ret at 1. unfold getitem_int.
    replace ((0 <=? row cell - 2) && (row cell - 2 <? Z.of_nat (length vals)))
      with true
      by (symmetry; apply andb_true_intro; split;
          [apply Z.leb_le | apply Z.ltb_lt]; lia).
    rewrite Hv. reflexivity.
Qed.

End fill.

(** *** The calls of [write], one by one *)

Lemma get_worksheet_found sheet index w f k :
  drive w !! sheet = Some f ->
  Spreadsheet.list_index (sheets f) index = Some k ->
  Spreadsheet.get_worksheet sheet index w =
  (Ok (Some (sheet, k)), logging w (call_get_worksheet sheet index)).
Proof.
  intros Hf Hk. unfold Spreadsheet.get_worksheet, bind, record_call.
  cbn. by rewrite Hf, Hk.
Qed.

Lemma rect_positions_rectangle nrows ncols :
  Worksheet.rect_positions 1 1 nrows ncols = rectangle nrows ncols.
Proof.
  unfold Worksheet.rect_positions, rectangle.
  by replace (nrows - 1 + 1) with nrows by lia;
     replace (ncols - 1 + 1) with ncols by lia.
Qed.

Lemma elem_of_rectangle nrows ncols r c :
  (r, c) ∈ rectangle nrows ncols <-> (1 <= r <= nrows) /\ (1 <= c <= ncols).
Proof.
  unfold rectangle. rewrite list_elem_of_bind. split.
  - intros (r' & Hin & Hr). apply list_elem_of_bind in Hin as (c' & Hin & Hc).
    apply list_elem_of_singleton in Hin. simplify_eq.
    apply elem_of_seqZ in Hr, Hc. lia.
  - intros [Hr Hc]. exists r. split; [|apply elem_of_seqZ; lia].
    apply list_elem_of_bind. exists c. split; [|apply elem_of_seqZ; lia].
    by apply list_elem_of_singleton.
Qed.

Lemma range_inside ws nrows ncols w g :
  Worksheet.lookup_ws w ws = Some g ->
  Worksheet.in_grid g nrows ncols = true ->
  Worksheet.range ws 1 1 nrows ncols w =
  (Ok (Worksheet.rect_cells g 1 1 nrows ncols),
   logging w (call_range ws 1 1 nrows ncols)).
Proof.
  intros Hg Hin. unfold Worksheet.range, bind, record_call. cbn.
  assert (Hb : (nrows <? 1) || (ncols <? 1) = false).
  { unfold Worksheet.in_grid in Hin. apply orb_false_intro; apply Z.ltb_ge.
    - destruct (1 <=? nrows) eqn:E; [apply Z.leb_le in E; lia | done].
    - destruct (1 <=? ncols) eqn:E; [apply Z.leb_le in E; lia|].
      by rewrite andb_false_r in Hin. }
  rewrite Hb.
  change (Worksheet.lookup_ws _ ws) with (Worksheet.lookup_ws w ws).
  by rewrite Hg, Hin.
Qed.

(** Whatever the service answers, [update_cells] is one logged call. *)
Lemma update_cells_calls ws cell_list w :
  calls (Worksheet.update_cells ws cell_list w).2 =
  calls w ++ [call_update_cells ws cell_list].
Proof.
  unfold Worksheet.update_cells, bind, record_call. cbn.
  destruct cell_list as [|c l]; [done|].
  change (Worksheet.lookup_ws _ ws) with (Worksheet.lookup_ws w ws).
  destruct (Worksheet.lookup_ws w ws) as [g|] eqn:Hg; [|done].
  destruct (Worksheet.put_cells g (c :: l)); [|done].
  unfold Worksheet.store_ws. cbn. by destruct (drive w !! ws.1).
Qed.

Lemma rect_cells_position g nrows ncols :
  position <$> Worksheet.rect_cells g 1 1 nrows ncols = rectangle nrows ncols.
Proof.
  unfold Worksheet.rect_cells. rewrite <- list_fmap_compose.
  rewrite rect_positions_rectangle.
  rewrite <- (list_fmap_id (rectangle nrows ncols)) at 2.
  apply list_fmap_ext. by intros i [r c] _.
Qed.

Lemma filled_position df (l : list Cell) :
  position <$> (filled df <$> l) = position <$> l.
Proof. rewrite <- list_fmap_compose. by apply list_fmap_ext. Qed.

(** The run of [write] on a worksheet that holds the rectangle: the two
    reads, the loop, and the batch update of the filled cells. *)
Lemma write_run self sheet df n w f k g :
  drive w !! sheet = Some f ->
  Spreadsheet.list_index (sheets f) (n - 1) = Some k ->
  sheets f !! k = Some g ->
  Worksheet.in_grid g (Z.of_nat (index_len df) + 1)
                      (Z.of_nat (length (data df))) = true ->
  well_formed df ->
  NoDup (columns df) ->
  write self sheet df n w =
  Worksheet.update_cells (sheet, k)
    (filled df <$> Worksheet.rect_cells g 1 1 (Z.of_nat (index_len df) + 1)
                      (Z.of_nat (length (data df))))
    (logging (logging w (call_get_worksheet sheet (n - 1)))
       (call_range (sheet, k) 1 1 (Z.of_nat (index_len df) + 1)
          (Z.of_nat (length (data df))))).
Proof.
  intros Hf Hk Hg Hin Hwf Hnd. unfold write.
  rewrite (bind_ok _ _ _ _ _ (get_worksheet_found _ _ _ _ _ Hf Hk)).
  cbn [_shape_to_range shape method].
  erewrite bind_ok; last first.
  { apply range_inside; [|exact Hin].
    unfold Worksheet.lookup_ws, logging. cbn. by rewrite Hf. }
  erewrite bind_ok; last first.
  { apply for_each_pure with (f := filled df).
    apply Forall_forall. intros cell Hcell.
    apply (list_elem_of_fmap_2 position) in Hcell.
    rewrite rect_cells_position in Hcell.
    destruct cell as [r c v]. apply elem_of_rectangle in Hcell.
    cbn in Hcell.
    refine (proj2 (fill_cell_inside df Hwf Hnd (mkCell r c v) _ _ _));
      cbn; lia. }
  reflexivity.
Qed.


(** *** Every run of [write] *)

Lemma fill_cell_state df col_indexes cell w :
  (fill_cell df col_indexes cell w).2 = w.
Proof.
  unfold fill_cell, bind, lift, ret, raise.
  destruct (row cell =? 1), (dict_getitem col_indexes (col cell - 1));
    try done.
  destruct (getitem df a); [|done]. by destruct (getitem_int a0 _).
Qed.

Lemma for_each_state {A B} (l : list A) (body : A -> M B) w :
  (forall x w, (body x w).2 = w) -> (for_each l body w).2 = w.
Proof.
  intros Hbody. induction l as [|x l IH]; [done|].
  cbn [for_each]. unfold bind at 1.
  specialize (Hbody x w). destruct (body x w) as [[y|e] w1]; cbn in Hbody;
    subst w1; [|done].
  unfold bind at 1. destruct (for_each l body w) as [[ys|e] w1];
    cbn in IH; by subst w1.
Qed.

Lemma range_calls ws r1 c1 r2 c2 w :
  calls (Worksheet.range ws r1 c1 r2 c2 w).2 =
  calls w ++ [call_range ws r1 c1 r2 c2].
Proof.
  unfold Worksheet.range, bind, record_call. cbn.
  destruct ((r1 <? 1) || (c1 <? 1) || (r2 <? 1) || (c2 <? 1)); [done|].
  destruct (Worksheet.lookup_ws _ ws) as [g|]; [|done].
  by destruct (Worksheet.in_grid g r2 c2).
Qed.

(** The calls a run of [write] adds to the log: the worksheet lookup;
    then, if a worksheet was found, the range fetch; then, if the loop
    went through, the batch update. A run that returns made all three. *)
Lemma write_calls_cases self sheet df n w :
  let run := write self sheet df n w in
  let lookup := call_get_worksheet sheet (n - 1) in
  (exists e, run.1 = Raise e /\ calls run.2 = calls w ++ [lookup]) \/
  (exists e ws r1 c1 r2 c2,
      run.1 = Raise e /\
      calls run.2 = calls w ++ [lookup; call_range ws r1 c1 r2 c2]) \/
  (exists ws r1 c1 r2 c2 cell_list,
      calls run.2 =
      calls w ++ [lookup; call_range ws r1 c1 r2 c2;
                  call_update_cells ws cell_list]).
Proof.
  cbn zeta.
  destruct (write self sheet df n w) as [res w'] eqn:Hrun. cbn [fst snd].
  unfold write in Hrun. unfold bind at 1 in Hrun.
  unfold Spreadsheet.get_worksheet at 1, bind at 1, record_call at 1 in Hrun.
  cbn [drive] in Hrun.
  destruct (drive w !! sheet) as [f|];
    [|simplify_eq; left; eexists; by cbn].
  destruct (Spreadsheet.list_index (sheets f) (n - 1)) as [k|];
    [|cbn in Hrun; simplify_eq; left; eexists; by cbn].
  right. cbn [_shape_to_range shape method] in Hrun.
  unfold bind at 1 in Hrun.
  match type of Hrun with
  | context [Worksheet.range ?ws ?a ?b ?c ?d ?w1] =>
      pose proof (range_calls ws a b c d w1) as Hrange;
      destruct (Worksheet.range ws a b c d w1) as [[cell_list|e] w2]
  end; cbn in Hrange.
  - unfold bind at 1 in Hrun.
    match type of Hrun with
    | context [for_each ?l ?body ?w1] =>
        pose proof (for_each_state l body w1
                      (fill_cell_state df _)) as Hloop;
        destruct (for_each l body w1) as [[filled_list|e] w3]
    end; cbn in Hloop; subst w3.
    + right. exists (sheet, k). do 4 eexists. exists filled_list.
      apply (f_equal snd) in Hrun. cbn [snd] in Hrun. subst w'.
      rewrite update_cells_calls, Hrange. rewrite <- !app_assoc. reflexivity.
    + simplify_eq. left. exists e, (sheet, k). do 4 eexists.
      split; [done|]. rewrite Hrange. rewrite <- !app_assoc. reflexivity.
  - simplify_eq. left. exists e, (sheet, k). do 4 eexists.
    split; [done|]. rewrite Hrange. rewrite <- !app_assoc. reflexivity.
Qed.


(** *** What a batch update leaves in the grid *)

Lemma put_cell_Some g c g' :
  Worksheet.put_cell g c = Some g' ->
  exists s, Worksheet.render (value_ c) = Some s /\
            g' = mkWorksheet (row_count g) (col_count g)
                   (<[(row c, col c) := s]> (cells g)).
Proof.
  unfold Worksheet.put_cell. destruct (Worksheet.render (value_ c)); [|done].
  destruct (Worksheet.in_grid g (row c) (col c)); [|done].
  intros; simplify_eq. eauto.
Qed.

Lemma put_cells_dims l : forall g g',
  Worksheet.put_cells g l = Some g' ->
  row_count g' = row_count g /\ col_count g' = col_count g.
Proof.
  induction l as [|c l IH]; intros g g' H; cbn in H; [by simplify_eq|].
  destruct (Worksheet.put_cell g c) as [g1|] eqn:H1; [|done].
  apply put_cell_Some in H1 as (s & _ & ->).
  by destruct (IH _ _ H).
Qed.

(** A cell no member of the list addresses keeps its text. *)
Lemma put_cells_other l : forall g g' p,
  Worksheet.put_cells g l = Some g' ->
  p ∉ position <$> l ->
  cells g' !! p = cells g !! p.
Proof.
  induction l as [|c l IH]; intros g g' p H Hp; cbn in H; [by simplify_eq|].
  destruct (Worksheet.put_cell g c) as [g1|] eqn:H1; [|done].
  apply put_cell_Some in H1 as (s & _ & ->).
  cbn [fmap list_fmap] in Hp. apply not_elem_of_cons in Hp as [Hne Hp].
  rewrite (IH _ _ p H Hp). cbn. by rewrite lookup_insert_ne.
Qed.

(** A cell the list addresses once holds the rendering of its value. *)
Lemma put_cells_at l : forall g g' c,
  Worksheet.put_cells g l = Some g' ->
  NoDup (position <$> l) ->
  c ∈ l ->
  cells g' !! position c = Worksheet.render (value_ c).
Proof.
  induction l as [|c0 l IH]; intros g g' c H Hnd Hc; [by inversion Hc|].
  cbn in H. destruct (Worksheet.put_cell g c0) as [g1|] eqn:H1; [|done].
  apply put_cell_Some in H1 as (s & Hs & ->).
  cbn [fmap list_fmap] in Hnd. apply NoDup_cons in Hnd as [Hfresh Hnd].
  apply elem_of_cons in Hc as [->|Hc].
  - rewrite (put_cells_other _ _ _ _ H Hfresh). cbn.
    by rewrite lookup_insert_eq.
  - by apply (IH _ _ c H).
Qed.

Lemma put_cells_is_Some l : forall g,
  Forall (fun c => is_Some (Worksheet.render (value_ c)) /\
                   Worksheet.in_grid g (row c) (col c) = true) l ->
  is_Some (Worksheet.put_cells g l).
Proof.
  induction l as [|c l IH]; intros g Hl; [by eexists|].
  apply Forall_cons in Hl as [[[s Hs] Hin] Hl].
  cbn. unfold Worksheet.put_cell. rewrite Hs, Hin. apply IH.
  eapply Forall_impl; [exact Hl|]. by intros c' [? ?].
Qed.

Lemma NoDup_rectangle nrows ncols : NoDup (rectangle nrows ncols).
Proof.
  unfold rectangle. apply NoDup_bind.
  - intros r1 r2 p _ _ H1 H2.
    apply list_elem_of_bind in H1 as (c1 & H1 & _).
    apply list_elem_of_bind in H2 as (c2 & H2 & _).
    apply list_elem_of_singleton in H1, H2. by simplify_eq.
  - intros r _. apply NoDup_bind.
    + intros c1 c2 p _ _ H1 H2.
      apply list_elem_of_singleton in H1, H2. by simplify_eq.
    + intros c _. apply NoDup_singleton.
    + apply NoDup_seqZ.
  - apply NoDup_seqZ.
Qed.

Lemma lookup_ws_logging w c ws :
  Worksheet.lookup_ws (logging w c) ws = Worksheet.lookup_ws w ws.
Proof. done. Qed.

Lemma lookup_store_ws w ws g g' :
  Worksheet.lookup_ws w ws = Some g ->
  Worksheet.lookup_ws (Worksheet.store_ws w ws g') ws = Some g'.
Proof.
  unfold Worksheet.lookup_ws, Worksheet.store_ws.
  destruct (drive w !! ws.1) as [f|] eqn:Hf; [|done]. intros Hg. cbn.
  rewrite list_lookup_insert_eq by (by eapply lookup_lt_Some). cbn.
  by rewrite list_lookup_insert_eq by (by eapply lookup_lt_Some).
Qed.

Lemma calls_store_ws w ws g : calls (Worksheet.store_ws w ws g) = calls w.
Proof. unfold Worksheet.store_ws. by destruct (drive w !! ws.1). Qed.

Lemma update_cells_run ws l w g g' :
  Worksheet.lookup_ws w ws = Some g ->
  l <> [] ->
  Worksheet.put_cells g l = Some g' ->
  Worksheet.update_cells ws l w =
  (Ok tt, Worksheet.store_ws (logging w (call_update_cells ws l)) ws g').
Proof.
  intros Hg Hl Hput. unfold Worksheet.update_cells, bind, record_call. cbn.
  destruct l as [|c l]; [done|].
  change (Worksheet.lookup_ws _ ws) with (Worksheet.lookup_ws w ws).
  by rewrite Hg, Hput.
Qed.

Lemma bind_singleton {A B} (h : A -> B) (l : list A) :
  l ≫= (fun x => [h x]) = h <$> l.
Proof. induction l as [|x l IH]; [done|]. cbn. by rewrite IH. Qed.

Lemma rectangle_one_row ncols :
  rectangle 1 ncols = (fun c => (1, c)) <$> seqZ 1 ncols.
Proof.
  unfold rectangle. change (seqZ 1 1) with [1].
  rewrite bind_cons. cbn [mbind list_bind]. rewrite app_nil_r. apply bind_singleton.
Qed.

(** In row 1 the loop body needs the column names only. *)
Lemma fill_cell_header df cell w :
  row cell = 1 ->
  1 <= col cell <= Z.of_nat (length (data df)) ->
  fill_cell df (list_to_map (reverse (enumerate (columns df)))) cell w =
  (Ok (filled df cell), w).
Proof.
  intros Hr Hc.
  destruct (lookup_lt_is_Some_2 (columns df) (Z.to_nat (col cell - 1)))
    as [name Hname]; [unfold columns; rewrite length_fmap; lia|].
  unfold fill_cell, filled, claimed_value, column_name.
  rewrite Hr. cbn [Z.eqb Pos.eqb].
  rewrite (col_indexes_lookup (columns df) (col cell - 1) name)
    by (split; [lia | done]).
  replace (0 <=? col cell - 1) with true by (symmetry; apply Z.leb_le; lia).
  rewrite Hname. reflexivity.
Qed.

(** The header row of a table, as the loop fills it. *)
Lemma filled_header_row df g :
  filled df <$> Worksheet.rect_cells g 1 1 1 (Z.of_nat (length (data df))) =
  header_cells (columns df).
Proof.
  unfold Worksheet.rect_cells. rewrite rect_positions_rectangle.
  rewrite rectangle_one_row. rewrite <- !list_fmap_compose.
  apply list_eq. intros i. unfold header_cells.
  rewrite list_lookup_fmap, list_lookup_imap.
  destruct (decide (i < length (data df))%nat) as [Hlt|Hge].
  - rewrite lookup_seqZ_lt by lia.
    destruct (lookup_lt_is_Some_2 (columns df) i) as [name Hname];
      [unfold columns; rewrite length_fmap; lia|].
    rewrite Hname. cbn. unfold filled, claimed_value, column_name. cbn.
    replace (0 <=? 1 + Z.of_nat i - 1) with true
      by (symmetry; apply Z.leb_le; lia).
    replace (Z.to_nat (1 + Z.of_nat i - 1)) with i by lia.
    rewrite Hname. cbn. unfold set_value. cbn. do 2 f_equal. lia.
  - rewrite lookup_seqZ_ge by lia.
    rewrite (lookup_ge_None_2 (columns df))
      by (unfold columns; rewrite length_fmap; lia).
    done.
Qed.

Lemma header_cells_position df :
  position <$> header_cells (columns df) =
  rectangle 1 (Z.of_nat (length (data df))).
Proof.
  rewrite <- (filled_header_row df (mkWorksheet 0 0 ∅)).
  by rewrite filled_position, rect_cells_position.
Qed.

Lemma in_grid_nat g (r c : nat) :
  (1 <= r <= row_count g)%nat -> (1 <= c <= col_count g)%nat ->
  Worksheet.in_grid g (Z.of_nat r) (Z.of_nat c) = true.
Proof.
  intros Hr Hc. unfold Worksheet.in_grid.
  repeat (apply andb_true_intro; split); apply Z.leb_le; lia.
Qed.

Lemma in_grid_bounds g r c :
  Worksheet.in_grid g r c = true <->
  (1 <= r <= Z.of_nat (row_count g)) /\ (1 <= c <= Z.of_nat (col_count g)).
Proof.
  unfold Worksheet.in_grid. rewrite !andb_true_iff, !Z.leb_le. lia.
Qed.

(** C10. For a table with no rows and at least one column, on a
    worksheet with a first row wide enough, [write] fetches the one-row
    range rows 1..1 by columns 1..col_count and submits, in one batch,
    that row with each cell set to the name of its column. The run
    returns; afterwards row 1 holds the names and no other row has
    changed, so the branch for data cells was never taken. *)
Theorem write_zero_rows_header_only self sheet df n w f k g :
  drive w !! sheet = Some f ->
  Spreadsheet.list_index (sheets f) (n - 1) = Some k ->
  sheets f !! k = Some g ->
  index_len df = 0%nat ->
  (0 < length (data df))%nat ->
  (1 <= row_count g)%nat ->
  (length (data df) <= col_count g)%nat ->
  exists w' g',
    write self sheet df n w = (Ok tt, w') /\
    calls w' =
      calls w ++
      [call_get_worksheet sheet (n - 1);
       call_range (sheet, k) 1 1 1 (Z.of_nat (length (data df)));
       call_update_cells (sheet, k) (header_cells (columns df))] /\
    Worksheet.lookup_ws w' (sheet, k) = Some g' /\
    (forall j name,
        columns df !! j = Some name ->
        Worksheet.cell_at g' 1 (Z.of_nat j + 1) = name) /\
    (forall r c, r <> 1 -> Worksheet.cell_at g' r c = Worksheet.cell_at g r c).
Proof.
  intros Hf Hk Hg Hrows Hcols Hgr Hgc.
  set (ncols := Z.of_nat (length (data df))).
  assert (Hin : Worksheet.in_grid g 1 ncols = true).
  { apply (in_grid_nat g 1 (length (data df))); lia. }
  assert (Hws : forall w1, drive w1 = drive w ->
                           Worksheet.lookup_ws w1 (sheet, k) = Some g).
  { intros w1 Hw1. unfold Worksheet.lookup_ws. cbn. by rewrite Hw1, Hf. }
  destruct (put_cells_is_Some (header_cells (columns df)) g) as [g' Hput].
  { apply Forall_forall. intros cell Hcell.
    unfold header_cells in Hcell.
    apply list_elem_of_lookup in Hcell as [j Hj].
    rewrite list_lookup_imap in Hj.
    destruct (columns df !! j) as [name|] eqn:Hname; [|done].
    apply lookup_lt_Some in Hname. unfold columns in Hname.
    rewrite length_fmap in Hname. cbn in Hj. simplify_eq. cbn.
    split; [by eexists|]. apply in_grid_bounds. lia. }
  assert (Hne : header_cells (columns df) <> []).
  { intros Hnil. apply (f_equal length) in Hnil.
    unfold header_cells, columns in Hnil.
    rewrite length_imap, length_fmap in Hnil. cbn in Hnil. lia. }
  assert (Hrun : write self sheet df n w =
                 (Ok tt,
                  Worksheet.store_ws
                    (logging
                       (logging (logging w (call_get_worksheet sheet (n - 1)))
                          (call_range (sheet, k) 1 1 1 ncols))
                       (call_update_cells (sheet, k)
                          (header_cells (columns df))))
                    (sheet, k) g')).
  { unfold write.
    rewrite (bind_ok _ _ _ _ _ (get_worksheet_found _ _ _ _ _ Hf Hk)).
    cbn [_shape_to_range shape method]. rewrite Hrows.
    change (Z.of_nat 0 + 1) with 1. fold ncols.
    rewrite (bind_ok _ _ _ _ _ (range_inside _ _ _ _ _
               (Hws (logging w (call_get_worksheet sheet (n - 1))) eq_refl)
               Hin)).
    erewrite bind_ok; last first.
    { apply for_each_pure with (f := filled df).
      apply Forall_forall. intros cell Hcell.
      apply (list_elem_of_fmap_2 position) in Hcell.
      rewrite rect_cells_position in Hcell.
      destruct cell as [r c v]. apply elem_of_rectangle in Hcell.
      cbn in Hcell. apply fill_cell_header; cbn; lia. }
    unfold ncols. rewrite filled_header_row.
    apply (update_cells_run _ _ _ g g'); [by apply Hws | done | done]. }
  exists (Worksheet.store_ws
            (logging
               (logging (logging w (call_get_worksheet sheet (n - 1)))
                  (call_range (sheet, k) 1 1 1 ncols))
               (call_update_cells (sheet, k) (header_cells (columns df))))
            (sheet, k) g'), g'.
  split; [exact Hrun|]. split.
  { rewrite calls_store_ws. cbn. by rewrite <- !app_assoc. }
  split.
  { apply (lookup_store_ws _ _ g). by apply Hws. }
  split.
  - intros j name Hname. unfold Worksheet.cell_at.
    change (1, Z.of_nat j + 1)
      with (position (mkCell 1 (Z.of_nat j + 1) (VStr name))).
    rewrite (put_cells_at _ _ _ _ Hput); [done | |].
    + rewrite header_cells_position. apply NoDup_rectangle.
    + apply list_elem_of_lookup. exists j. unfold header_cells.
      by rewrite list_lookup_imap, Hname.
  - intros r c Hr. unfold Worksheet.cell_at.
    rewrite (put_cells_other _ _ _ (r, c) Hput); [done|].
    rewrite header_cells_position. intros Hrc.
    apply elem_of_rectangle in Hrc. lia.
Qed.

(** ** read *)

Lemma get_all_records_run ws w g :
  Worksheet.lookup_ws w ws = Some g ->
  Worksheet.get_all_records ws 1 w =
  (Ok (sheet_records g), logging w (call_get_all_records ws 1)).
Proof.
  intros Hg. unfold Worksheet.get_all_records, bind, record_call. cbn.
  change (Worksheet.lookup_ws _ ws) with (Worksheet.lookup_ws w ws).
  rewrite Hg. unfold sheet_records.
  change (Z.to_nat (1 - 1)) with 0%nat.
  by destruct (Worksheet.all_values g !! 0%nat).
Qed.

Lemma row_values_run ws w g :
  Worksheet.lookup_ws w ws = Some g ->
  Worksheet.row_values ws 1 w =
  (Ok (Worksheet.row_text g 1 (Worksheet.row_extent g 1)),
   logging w (call_row_values ws 1)).
Proof.
  intros Hg. unfold Worksheet.row_values, bind, record_call. cbn.
  change (Worksheet.lookup_ws _ ws) with (Worksheet.lookup_ws w ws).
  by rewrite Hg.
Qed.

(** The run of [read] on a worksheet that exists: three calls, then the
    loop over [data_types] on the table built from the sheet. *)
Lemma read_run self sheet n data_types w f k g :
  drive w !! sheet = Some f ->
  Spreadsheet.list_index (sheets f) (n - 1) = Some k ->
  sheets f !! k = Some g ->
  read self sheet n data_types w =
  match data_types with
  | Some items => cast_loop items (read_table g) (after_read w sheet n k)
  | None => (Ok (read_table g), after_read w sheet n k)
  end.
Proof.
  intros Hf Hk Hg. unfold read.
  rewrite (bind_ok _ _ _ _ _ (get_worksheet_found _ _ _ _ _ Hf Hk)).
  cbn [method].
  assert (Hws : forall w1, drive w1 = drive w ->
                           Worksheet.lookup_ws w1 (sheet, k) = Some g).
  { intros w1 Hw1. unfold Worksheet.lookup_ws. cbn. by rewrite Hw1, Hf. }
  rewrite (bind_ok _ _ _ _ _
             (get_all_records_run _ _ _
                (Hws (logging w (call_get_worksheet sheet (n - 1))) eq_refl))).
  erewrite bind_ok; last first.
  { apply (row_values_run _ _ g). by apply Hws. }
  by destruct data_types.
Qed.

(** *** Casting *)

Lemma cast_value_error t v e :
  cast_value t v = Raise e -> exists m, e = ValueError m.
Proof.
  destruct t, v; cbn; try discriminate.
  - destruct (int_of_str s); [discriminate|]. intros; simplify_eq. eauto.
  - intros; simplify_eq. eauto.
Qed.

Lemma cast_values_cases t vals :
  (Forall (representable t) vals /\ exists vals', cast_values t vals = Ok vals')
  \/ (~ Forall (representable t) vals /\
      exists m, cast_values t vals = Raise (ValueError m)).
Proof.
  induction vals as [|v vals IH]; [left; split; [constructor | by eexists]|].
  cbn. destruct (cast_value t v) as [v'|e] eqn:Hv.
  - destruct IH as [[Hall [vals' ->]]|[Hnot [m ->]]].
    + left. split; [|by eexists]. constructor; [by exists v' | done].
    + right. split; [|by eexists]. intros H. apply Hnot.
      by apply Forall_cons in H as [_ H].
  - destruct (cast_value_error _ _ _ Hv) as [m ->]. right.
    split; [|by eexists]. intros H. apply Forall_cons in H as [[v' Hv'] _].
    congruence.
Qed.

Lemma cast_cols_cases t cols :
  (Forall (fun c => Forall (representable t) c.2) cols /\
   exists cols', cast_cols t cols = Ok cols' /\ cols'.*1 = cols.*1)
  \/ (~ Forall (fun c => Forall (representable t) c.2) cols /\
      exists m, cast_cols t cols = Raise (ValueError m)).
Proof.
  induction cols as [|[name vals] cols IH];
    [left; split; [constructor | by eexists]|].
  cbn. destruct (cast_values_cases t vals) as [[Hv [vals' ->]]|[Hv [m ->]]].
  - destruct IH as [[Hall (cols' & -> & Hn)]|[Hnot [m ->]]].
    + left. split; [by constructor|]. eexists. split; [done|].
      cbn. by rewrite Hn.
    + right. split; [|by eexists]. intros H. apply Hnot.
      by apply Forall_cons in H as [_ H].
  - right. split; [|by eexists]. intros H.
    by apply Forall_cons in H as [H _].
Qed.

(** *** Assigning a column *)

Lemma same_outside_columns col old new :
  same_outside col old new -> new.*1 = old.*1.
Proof.
  induction 1 as [|x y old new [Hn _] _ IH]; [done|].
  cbn. by rewrite IH, Hn.
Qed.

Lemma same_outside_filter col other old new :
  same_outside col old new -> other ≠ col ->
  filter (fun c => c.1 = other) new = filter (fun c => c.1 = other) old.
Proof.
  intros H Hne. induction H as [|x y old new [Hn Heq] _ IH]; [done|].
  destruct (decide (x.1 = other)) as [Hx|Hx].
  - rewrite <- Heq by congruence.
    rewrite !filter_cons_True by done. by rewrite IH.
  - rewrite !filter_cons_False by congruence. done.
Qed.

Lemma assign_same_outside col cols : forall new,
  same_outside col cols (assign col new cols).
Proof.
  induction cols as [|[n vals] cols IH]; intros new; [constructor|].
  cbn. destruct (decide (n = col)) as [->|Hne].
  - destruct new as [|vals' new]; (constructor; [by split | apply IH]).
  - constructor; [by split | apply IH].
Qed.

Lemma replace_same_outside col vals cols :
  same_outside col cols
    ((fun c => if decide (c.1 = col) then (c.1, vals) else c) <$> cols).
Proof.
  induction cols as [|c cols IH]; [constructor|].
  cbn. constructor; [|done].
  destruct (decide (c.1 = col)); by split.
Qed.

Lemma setitem_same_outside df col sel :
  col ∈ columns df ->
  same_outside col (data df) (data (setitem df col sel)).
Proof.
  intros Hin. unfold setitem. destruct sel as [name vals|cols].
  - rewrite decide_True by done. apply replace_same_outside.
  - apply assign_same_outside.
Qed.

(** *** One turn of the loop of [read] *)

Lemma getitem_present df col :
  col ∈ columns df ->
  (exists vals, named col df = [(col, vals)] /\
                getitem df col = Ok (Series col vals)) \/
  (getitem df col = Ok (Frame (named col df)) /\
   selection_name (Frame (named col df)) = col).
Proof.
  intros Hin. unfold columns in Hin.
  apply list_elem_of_fmap in Hin as (c & -> & Hc).
  assert (Hnamed : c ∈ named c.1 df) by (by apply list_elem_of_filter).
  unfold getitem. fold (named c.1 df).
  destruct (named c.1 df) as [|c0 [|c1 rest]] eqn:Hn.
  - by inversion Hnamed.
  - left. exists c0.2. apply list_elem_of_singleton in Hnamed. subst c0.
    by destruct c.
  - right. split; [done|]. cbn.
    assert (H0 : c0 ∈ named c.1 df) by (rewrite Hn; apply list_elem_of_here).
    by apply list_elem_of_filter in H0 as [H0 _].
Qed.

Lemma cast_column_ok df col t w :
  col ∈ columns df ->
  column_representable df col t ->
  exists df1,
    cast_column df col t w = (Ok df1, logging w (call_astype col t)) /\
    same_outside col (data df) (data df1).
Proof.
  intros Hin Hrep. unfold cast_column, try_except, column_representable in *.
  destruct (getitem_present df col Hin)
    as [(vals & Hn & Hget)|[Hget Hname]]; rewrite Hget; cbn [lift].
  - rewrite Hn in Hrep. rewrite Forall_singleton in Hrep. cbn in Hrep.
    destruct (cast_values_cases t vals) as [[_ [vals' Hc]]|[Hnot _]];
      [|contradiction].
    unfold bind, ret, astype, record_call, lift. cbn. rewrite Hc.
    eexists. split; [reflexivity|]. by apply setitem_same_outside.
  - destruct (cast_cols_cases t (named col df))
      as [[_ (cols' & Hc & _)]|[Hnot _]]; [|contradiction].
    unfold bind, ret, astype, record_call, lift. rewrite Hname. cbn.
    rewrite Hc. eexists. split; [reflexivity|].
    by apply setitem_same_outside.
Qed.

Lemma cast_column_fails df col t w :
  col ∈ columns df ->
  ~ column_representable df col t ->
  cast_column df col t w =
  (Raise (Exception (typecast_message col t)), logging w (call_astype col t)).
Proof.
  intros Hin Hrep. unfold cast_column, try_except, column_representable in *.
  destruct (getitem_present df col Hin)
    as [(vals & Hn & Hget)|[Hget Hname]]; rewrite Hget; cbn [lift].
  - rewrite Hn in Hrep.
    destruct (cast_values_cases t vals) as [[Hall _]|[_ [m Hc]]].
    { exfalso. apply Hrep. by apply Forall_singleton. }
    unfold bind, ret, astype, record_call, lift. cbn. by rewrite Hc.
  - destruct (cast_cols_cases t (named col df)) as [[Hall _]|[_ [m Hc]]];
      [contradiction|].
    unfold bind, ret, astype, record_call, lift. rewrite Hname. cbn.
    by rewrite Hc.
Qed.

Lemma logging_all_nil w : logging_all w [] = w.
Proof. destruct w. unfold logging_all. cbn. by rewrite app_nil_r. Qed.

Lemma logging_all_cons w c l :
  logging_all (logging w c) l = logging_all w (c :: l).
Proof. unfold logging_all, logging. cbn. by rewrite <- app_assoc. Qed.

Lemma passes_same_outside col df df1 item :
  same_outside col (data df) (data df1) ->
  item.1 ≠ col ->
  passes df item -> passes df1 item.
Proof.
  intros Hsame Hne [Hin Hrep]. split.
  - unfold columns. by rewrite (same_outside_columns _ _ _ Hsame).
  - unfold column_representable, named.
    by rewrite (same_outside_filter _ _ _ _ Hsame Hne).
Qed.

(** The entries that pass are cast in turn; each adds its [astype] call
    and leaves the names, and the columns of other names, as they were. *)
Lemma cast_loop_passes pre : forall rest df w,
  NoDup pre.*1 ->
  Forall (passes df) pre ->
  exists df',
    cast_loop (pre ++ rest) df w =
      cast_loop rest df' (logging_all w (astype_calls pre)) /\
    columns df' = columns df /\
    (forall c, c ∉ pre.*1 -> named c df' = named c df).
Proof.
  induction pre as [|[col t] pre IH]; intros rest df w Hnd Hpass.
  - exists df. by rewrite logging_all_nil.
  - cbn [fmap list_fmap fst] in Hnd. apply NoDup_cons in Hnd as [Hfresh Hnd].
    apply Forall_cons in Hpass as [[Hin Hrep] Hpass]. cbn [fst snd] in *.
    destruct (cast_column_ok df col t w Hin Hrep) as (df1 & Hstep & Hsame).
    destruct (IH rest df1 (logging w (call_astype col t)) Hnd)
      as (df' & Hloop & Hcols & Hnamed).
    { apply Forall_forall. intros item Hitem.
      apply (passes_same_outside col df); [done | |].
      - intros Heq. apply Hfresh. rewrite <- Heq.
        by apply list_elem_of_fmap_2.
      - by apply (proj1 (Forall_forall _ _) Hpass). }
    exists df'. split; [|split].
    + cbn [app cast_loop]. rewrite bool_decide_false by (intros H; by apply H).
      rewrite (bind_ok _ _ _ _ _ Hstep). rewrite Hloop.
      by rewrite logging_all_cons.
    + rewrite Hcols. unfold columns.
      by rewrite (same_outside_columns _ _ _ Hsame).
    + intros c Hc. cbn [fmap list_fmap fst] in Hc.
      apply not_elem_of_cons in Hc as [Hne Hc].
      rewrite (Hnamed c Hc). unfold named.
      by rewrite (same_outside_filter _ _ _ _ Hsame Hne).
Qed.

Lemma NoDup_keys_split (pre post : list (string * dtype)) col t :
  NoDup (pre ++ (col, t) :: post).*1 -> NoDup pre.*1 /\ col ∉ pre.*1.
Proof.
  rewrite fmap_app. cbn [fmap list_fmap fst]. intros H.
  apply NoDup_app in H as (Hpre & Hdisj & _). split; [done|].
  intros Hin. apply (Hdisj col Hin). apply list_elem_of_here.
Qed.

(** The first entry of [data_types] that does not pass decides the
    outcome of the loop: a column that is there but cannot be cast. *)
Lemma cast_loop_typecast pre col t post df w :
  NoDup (pre ++ (col, t) :: post).*1 ->
  Forall (passes df) pre ->
  col ∈ columns df ->
  ~ column_representable df col t ->
  cast_loop (pre ++ (col, t) :: post) df w =
  (Raise (Exception (typecast_message col t)),
   logging_all w (astype_calls (pre ++ [(col, t)]))).
Proof.
  intros Hnd Hpass Hin Hrep.
  apply NoDup_keys_split in Hnd as [Hnd Hfresh].
  destruct (cast_loop_passes pre ((col, t) :: post) df w Hnd Hpass)
    as (df' & -> & Hcols & Hnamed).
  cbn [cast_loop]. rewrite Hcols.
  rewrite bool_decide_false by (intros H; by apply H).
  erewrite bind_raise; last first.
  { apply cast_column_fails; [by rewrite Hcols|].
    unfold column_representable. by rewrite (Hnamed col Hfresh). }
  unfold astype_calls. rewrite fmap_app. cbn.
  unfold logging, logging_all. cbn. by rewrite <- app_assoc.
Qed.

(** The same, for a column that is not there. *)
Lemma cast_loop_missing pre col t post df w :
  NoDup (pre ++ (col, t) :: post).*1 ->
  Forall (passes df) pre ->
  col ∉ columns df ->
  cast_loop (pre ++ (col, t) :: post) df w =
  (Raise (KeyError (key_message col)), logging_all w (astype_calls pre)).
Proof.
  intros Hnd Hpass Hout.
  apply NoDup_keys_split in Hnd as [Hnd _].
  destruct (cast_loop_passes pre ((col, t) :: post) df w Hnd Hpass)
    as (df' & -> & Hcols & _).
  cbn [cast_loop]. rewrite Hcols. by rewrite bool_decide_true by done.
Qed.

Lemma read_table_people : read_table people_sheet = people_table.
Proof. vm_compute. reflexivity. Qed.


Lemma people_name_passes : passes people_table ("name", str_t).
Proof.
  split.
  - apply list_elem_of_here.
  - unfold column_representable. apply Forall_singleton.
    repeat constructor; by eexists.
Qed.

Lemma people_age_not_int : ~ column_representable people_table "age" int_t.
Proof.
  unfold column_representable.
  change (named "age" people_table)
    with [("age", [VInt 31; VStr "unknown"])].
  rewrite Forall_singleton. cbn. intros H.
  apply Forall_cons in H as [_ H]. apply Forall_cons in H as [[v Hv] _].
  discriminate Hv.
Qed.



(** C5, as the code has it. When every entry of [data_types] before
    (col, t) names a column of the table whose values can be cast, and
    col is not a column of the table, [read] fails with the KeyError that
    names col; the casts made are those of the entries before it, so
    none is made for col or after it, and none at all when the entry is
    the first. *)
Theorem read_missing_column self sheet n w f k g pre col t post :
  drive w !! sheet = Some f ->
  Spreadsheet.list_index (sheets f) (n - 1) = Some k ->
  sheets f !! k = Some g ->
  NoDup (pre ++ (col, t) :: post).*1 ->
  Forall (passes (read_table g)) pre ->
  col ∉ columns (read_table g) ->
  read self sheet n (Some (pre ++ (col, t) :: post)) w =
  (Raise (KeyError
            ("Dictionary dtypes's key '" +:+ col +:+
             "' was not found in sheet.")),
   logging_all (after_read w sheet n k) (astype_calls pre)).
Proof.
  intros Hf Hk Hg Hnd Hpass Hout.
  rewrite (read_run self sheet n _ w f k g Hf Hk Hg).
  by rewrite cast_loop_missing.
Qed.

Lemma read_missing_column_witness :
  read (__init__ robot None) 0%nat 1
       (Some ([] ++ ("zip", str_t) :: [("age", int_t)])) people_drive =
  (Raise (KeyError
            ("Dictionary dtypes's key '" +:+ "zip" +:+
             "' was not found in sheet.")),
   logging_all (after_read people_drive 0%nat 1 0%nat) (astype_calls [])).
Proof.
  apply (read_missing_column (__init__ robot None) 0%nat 1 people_drive
           (mkFile "People" [people_sheet] []) 0%nat people_sheet
           [] "zip" str_t [("age", int_t)]).
  - reflexivity.
  - reflexivity.
  - reflexivity.
  - decide_by_compute.
  - constructor.
  - rewrite read_table_people. decide_by_compute.
Defined.

(** C5 as stated fails: with a map that names a column the table lacks
    after an entry that cannot be cast, the cast of the earlier entry is
    made, and its failure is the error of the call. *)
Lemma read_missing_column_counterexample :
  ("zip" ∉ columns (read_table people_sheet)) /\
  (read (__init__ robot None) 0%nat 1
        (Some [("age", int_t); ("zip", str_t)]) people_drive).1 =
  Raise (Exception (typecast_message "age" int_t)) /\
  calls (read (__init__ robot None) 0%nat 1
              (Some [("age", int_t); ("zip", str_t)]) people_drive).2 =
  [call_get_worksheet 0%nat 0; call_get_all_records (0%nat, 0%nat) 1;
   call_row_values (0%nat, 0%nat) 1; call_astype "age" int_t].
Proof.
  rewrite read_table_people. split; [|split].
  - decide_by_compute.
  - vm_compute. reflexivity.
  - vm_compute. reflexivity.
Qed.

(** *** The extent of the data *)

Lemma last_such_le p n : (Worksheet.last_such p n <= n)%nat.
Proof. induction n as [|n IH]; cbn; [done|]. destruct (p (S n)); lia. Qed.

Lemma last_such_after p n k :
  (Worksheet.last_such p n < k <= n)%nat -> p k = false.
Proof.
  induction n as [|n IH]; cbn; [lia|].
  destruct (p (S n)) eqn:Hp; [lia|]. intros Hk.
  destruct (decide (k = S n)) as [->|Hne]; [done|]. apply IH. lia.
Qed.

Lemma last_such_is p n m :
  (1 <= m <= n)%nat -> p m = true ->
  (forall k, (m < k <= n)%nat -> p k = false) ->
  Worksheet.last_such p n = m.
Proof.
  intros Hm Hp Hafter. induction n as [|n IH]; [lia|]. cbn.
  destruct (decide (m = S n)) as [->|Hne]; [by rewrite Hp|].
  rewrite (Hafter (S n)) by lia. apply IH; [lia|].
  intros k Hk. apply Hafter. lia.
Qed.

Lemma last_such_none p n :
  (forall k, (1 <= k <= n)%nat -> p k = false) -> Worksheet.last_such p n = 0%nat.
Proof.
  intros Hall. induction n as [|n IH]; [done|]. cbn.
  rewrite (Hall (S n)) by lia. apply IH. intros k Hk. apply Hall. lia.
Qed.

Lemma row_text_app g r m n :
  Worksheet.row_text g r (m + n) =
  Worksheet.row_text g r m ++
  ((fun c => Worksheet.cell_at g (Z.of_nat r) (Z.of_nat c)) <$> seq (1 + m) n).
Proof. unfold Worksheet.row_text. by rewrite seq_app, fmap_app. Qed.

Lemma filter_none {A} (P : A -> Prop) `{forall x, Decision (P x)} (l : list A) :
  Forall (fun x => ~ P x) l -> filter P l = [].
Proof.
  induction 1 as [|x l Hx _ IH]; [done|].
  by rewrite filter_cons_False.
Qed.

(** Past the extent of a row every cell is blank, so the names that are
    not blank are those of the whole row. *)
Lemma nonblank_names_of_row g r :
  filter (fun col => col ≠ EmptyString)
    (Worksheet.row_text g r (Worksheet.row_extent g r)) =
  filter (fun col => col ≠ EmptyString)
    (Worksheet.row_text g r (col_count g)).
Proof.
  pose proof (last_such_le (Worksheet.nonblank g r) (col_count g)) as Hle.
  fold (Worksheet.row_extent g r) in Hle.
  assert (Hsplit : Worksheet.row_text g r (col_count g) =
                   Worksheet.row_text g r
                     (Worksheet.row_extent g r +
                      (col_count g - Worksheet.row_extent g r)))
    by (f_equal; lia).
  rewrite Hsplit, row_text_app, filter_app.
  rewrite (filter_none _ (_ <$> _)); [by rewrite app_nil_r|].
  apply Forall_fmap, Forall_forall. intros c Hc. cbn.
  apply elem_of_seq in Hc.
  pose proof (last_such_after (Worksheet.nonblank g r) (col_count g) c) as Hb.
  fold (Worksheet.row_extent g r) in Hb.
  unfold Worksheet.nonblank in Hb. intros Hne.
  assert (Hf : bool_decide
                 (Worksheet.cell_at g (Z.of_nat r) (Z.of_nat c) ≠ EmptyString)
               = false) by (apply Hb; lia).
  by apply bool_decide_eq_false in Hf.
Qed.

Lemma from_records_columns contents cols :
  columns (from_records contents cols) = cols.
Proof.
  unfold columns, from_records. cbn. rewrite <- list_fmap_compose.
  rewrite <- (list_fmap_id cols) at 2. by apply list_fmap_ext.
Qed.

Lemma cast_column_columns df col t w df1 w1 :
  col ∈ columns df ->
  cast_column df col t w = (Ok df1, w1) ->
  columns df1 = columns df.
Proof.
  intros Hin Hrun.
  destruct (cast_cols_cases t (named col df)) as [[Hall _]|[Hnot _]].
  - destruct (cast_column_ok df col t w Hin Hall) as (df2 & Hok & Hsame).
    rewrite Hok in Hrun. simplify_eq. unfold columns.
    by rewrite (same_outside_columns _ _ _ Hsame).
  - rewrite (cast_column_fails df col t w Hin Hnot) in Hrun. discriminate.
Qed.

Lemma cast_loop_columns items : forall df w df' w',
  cast_loop items df w = (Ok df', w') -> columns df' = columns df.
Proof.
  induction items as [|[col t] items IH]; intros df w df' w' Hrun.
  - cbn in Hrun. unfold ret in Hrun. by simplify_eq.
  - cbn [cast_loop] in Hrun.
    destruct (bool_decide (col ∉ columns df)) eqn:Hin; [discriminate|].
    apply bool_decide_eq_false in Hin. apply dec_stable in Hin.
    unfold bind in Hrun.
    destruct (cast_column df col t w) as [[df1|e] w1] eqn:Hstep;
      [|discriminate].
    rewrite (IH _ _ _ _ Hrun).
    by apply (cast_column_columns df col t w df1 w1).
Qed.

(** C8. On a worksheet that exists, [read] without [data_types]
    returns a table, and the columns of any table [read] returns, with
    or without casts, are the non-empty texts of the cells of row 1, in
    the order of the row. *)
Theorem read_columns_are_nonblank_headers self sheet n w f k g :
  drive w !! sheet = Some f ->
  Spreadsheet.list_index (sheets f) (n - 1) = Some k ->
  sheets f !! k = Some g ->
  (exists df w', read self sheet n None w = (Ok df, w')) /\
  (forall data_types df w',
      read self sheet n data_types w = (Ok df, w') ->
      columns df = filter (fun col => col ≠ EmptyString) (header_row g)).
Proof.
  intros Hf Hk Hg. split.
  - rewrite (read_run self sheet n None w f k g Hf Hk Hg). by do 2 eexists.
  - intros data_types df w' Hrun.
    rewrite (read_run self sheet n _ w f k g Hf Hk Hg) in Hrun.
    assert (Hcols : columns (read_table g) =
                    filter (fun col => col ≠ EmptyString) (header_row g)).
    { unfold read_table. rewrite from_records_columns.
      apply (nonblank_names_of_row g 1). }
    destruct data_types as [items|].
    + by rewrite (cast_loop_columns _ _ _ _ _ Hrun).
    + by simplify_eq.
Qed.

(** ** The theorems at concrete inputs *)

Lemma people_table_well_formed : well_formed people_table.
Proof. repeat constructor. Qed.


Lemma write_zero_rows_header_only_witness :
  exists w' g',
    write (__init__ robot None) 0%nat empty_people 1 budget_drive
      = (Ok tt, w') /\
    calls w' =
      calls budget_drive ++
      [call_get_worksheet 0%nat (1 - 1);
       call_range (0%nat, 0%nat) 1 1 1
                  (Z.of_nat (length (data empty_people)));
       call_update_cells (0%nat, 0%nat) (header_cells (columns empty_people))]
    /\
    Worksheet.lookup_ws w' (0%nat, 0%nat) = Some g' /\
    (forall j name,
        columns empty_people !! j = Some name ->
        Worksheet.cell_at g' 1 (Z.of_nat j + 1) = name) /\
    (forall r c, r <> 1 ->
                 Worksheet.cell_at g' r c = Worksheet.cell_at budget_sheet r c).
Proof.
  apply (write_zero_rows_header_only (__init__ robot None) 0%nat empty_people
           1 budget_drive budget_file 0%nat budget_sheet).
  - reflexivity.
  - reflexivity.
  - reflexivity.
  - reflexivity.
  - cbn. lia.
  - cbn. lia.
  - cbn. lia.
Defined.

Lemma read_columns_are_nonblank_headers_witness :
  (exists df w', read (__init__ robot None) 0%nat 1 None people_drive
                 = (Ok df, w')) /\
  (forall data_types df w',
      read (__init__ robot None) 0%nat 1 data_types people_drive
      = (Ok df, w') ->
      columns df =
      filter (fun col => col ≠ EmptyString) (header_row people_sheet)).
Proof.
  apply (read_columns_are_nonblank_headers (__init__ robot None) 0%nat 1
           people_drive (mkFile "People" [people_sheet] []) 0%nat people_sheet);
    reflexivity.
Defined.

(** ** The round trip *)

Lemma claimed_header df j name column :
  data df !! j = Some (name, column) ->
  claimed_value df 1 (Z.of_nat j + 1) = Some (VStr name).
Proof.
  intros Hj. unfold claimed_value, column_name, columns. cbn.
  replace (0 <=? Z.of_nat j + 1 - 1) with true
    by (symmetry; apply Z.leb_le; lia).
  replace (Z.to_nat (Z.of_nat j + 1 - 1)) with j by lia.
  by rewrite list_lookup_fmap, Hj.
Qed.

Lemma claimed_data df i j name column v :
  data df !! j = Some (name, column) ->
  column !! i = Some v ->
  claimed_value df (Z.of_nat i + 2) (Z.of_nat j + 1) = Some v.
Proof.
  intros Hj Hi. unfold claimed_value, table_value.
  replace (Z.of_nat i + 2 =? 1) with false by (symmetry; apply Z.eqb_neq; lia).
  replace ((0 <=? Z.of_nat i + 2 - 2) && (0 <=? Z.of_nat j + 1 - 1)) with true
    by (symmetry; apply andb_true_intro; split; apply Z.leb_le; lia).
  replace (Z.to_nat (Z.of_nat j + 1 - 1)) with j by lia.
  replace (Z.to_nat (Z.of_nat i + 2 - 2)) with i by lia.
  by rewrite Hj.
Qed.

Lemma stable_nonblank v s :
  stable v -> Worksheet.render v = Some s -> v ≠ VStr EmptyString ->
  s ≠ EmptyString.
Proof.
  intros (s' & Hs' & Hnum) Hs Hv ->. rewrite Hs in Hs'.
  injection Hs' as <-. apply Hv. by rewrite <- Hnum.
Qed.

Lemma DataFrame_eq (a b : DataFrame) :
  index_len a = index_len b -> data a = data b -> a = b.
Proof. destruct a, b. cbn. by intros -> ->. Qed.

(** With distinct keys, [dict(zip(keys, vals))[key]] is the value at the
    position of the key. *)
Lemma dict_zip_lookup keys vals j key v :
  NoDup keys -> length vals = length keys ->
  keys !! j = Some key -> vals !! j = Some v ->
  Worksheet.dict_zip keys vals !! key = Some v.
Proof.
  intros Hnd Hlen Hkey Hv. unfold Worksheet.dict_zip.
  apply elem_of_list_to_map_1.
  - rewrite fmap_reverse, reverse_Permutation.
    rewrite fst_zip by lia. done.
  - apply elem_of_reverse. apply list_elem_of_lookup. exists j.
    rewrite lookup_zip_with, Hkey. cbn. by rewrite Hv.
Qed.

Lemma last_such_bound p n m :
  (forall k, (m < k <= n)%nat -> p k = false) ->
  (Worksheet.last_such p n <= m)%nat.
Proof.
  intros Hafter. induction n as [|n IH]; cbn; [lia|].
  destruct (decide (S n <= m)%nat) as [Hle|Hgt].
  - pose proof (last_such_le p n). destruct (p (S n)); lia.
  - rewrite (Hafter (S n)) by lia. apply IH. intros k Hk. apply Hafter. lia.
Qed.

Lemma last_such_ge p n k :
  (1 <= k <= n)%nat -> p k = true -> (k <= Worksheet.last_such p n)%nat.
Proof.
  intros Hk Hp. destruct (decide (k <= Worksheet.last_such p n)%nat); [done|].
  rewrite (last_such_after p n k) in Hp by lia. discriminate.
Qed.

Lemma max_list_bound (l : list nat) m :
  Forall (fun x => (x <= m)%nat) l -> (max_list l <= m)%nat.
Proof. induction 1 as [|x l Hx _ IH]; cbn; lia. Qed.

Section written_sheet.

Variable df : DataFrame.
Variables g g' : Worksheet.

Let nr : nat := index_len df.
Let nc : nat := length (data df).

Hypothesis Hrt : round_trips df.
Hypothesis Hgrid : Worksheet.in_grid g (Z.of_nat nr + 1) (Z.of_nat nc) = true.
Hypothesis Hblank : blank_outside g (Z.of_nat nr + 1) (Z.of_nat nc).
Hypothesis Hput :
  Worksheet.put_cells g
    (filled df <$> Worksheet.rect_cells g 1 1 (Z.of_nat nr + 1) (Z.of_nat nc))
  = Some g'.

Lemma written_inside r c :
  (r, c) ∈ rectangle (Z.of_nat nr + 1) (Z.of_nat nc) ->
  cells g' !! (r, c) =
  Worksheet.render (default VNaN (claimed_value df r c)).
Proof.
  intros Hin.
  change (r, c) with (position (filled df (mkCell r c (VStr (Worksheet.cell_at g r c))))).
  rewrite (put_cells_at _ _ _ _ Hput); [done | |].
  - rewrite filled_position, rect_cells_position. apply NoDup_rectangle.
  - apply list_elem_of_fmap_2. unfold Worksheet.rect_cells.
    rewrite rect_positions_rectangle.
    by apply (list_elem_of_fmap_2
                (fun p => mkCell p.1 p.2 (VStr (Worksheet.cell_at g p.1 p.2)))
                _ (r, c)).
Qed.

Lemma written_outside r c :
  Worksheet.in_grid g r c = true ->
  (r, c) ∉ rectangle (Z.of_nat nr + 1) (Z.of_nat nc) ->
  Worksheet.cell_at g' r c = EmptyString.
Proof.
  intros Hin Hout. unfold Worksheet.cell_at.
  rewrite (put_cells_other _ _ _ (r, c) Hput).
  - by apply Hblank.
  - by rewrite filled_position, rect_cells_position.
Qed.

Lemma written_dims : row_count g' = row_count g /\ col_count g' = col_count g.
Proof. by apply (put_cells_dims _ _ _ Hput). Qed.

Lemma grid_holds_table :
  (nr + 1 <= row_count g)%nat /\ (1 <= nc <= col_count g)%nat.
Proof. apply in_grid_bounds in Hgrid. lia. Qed.

(** Row 1 holds the names. *)
Lemma written_header j name column :
  data df !! j = Some (name, column) ->
  Worksheet.cell_at g' 1 (Z.of_nat j + 1) = name.
Proof.
  intros Hj. unfold Worksheet.cell_at.
  rewrite written_inside.
  - by rewrite (claimed_header df j name column Hj).
  - apply elem_of_rectangle. apply lookup_lt_Some in Hj. fold nc in Hj. lia.
Qed.

(** Row i + 2 holds the text of row i of the table, which reads back as
    the value. *)
Lemma written_data i j name column v :
  data df !! j = Some (name, column) ->
  column !! i = Some v ->
  Worksheet.render v = Some (Worksheet.cell_at g' (Z.of_nat i + 2) (Z.of_nat j + 1))
  /\ Worksheet.numericise
       (Worksheet.cell_at g' (Z.of_nat i + 2) (Z.of_nat j + 1)) = v.
Proof.
  intros Hj Hi.
  assert (Hst : stable v).
  { pose proof (rt_stable df Hrt) as Hall.
    pose proof (Forall_lookup_1 _ _ _ _ Hall Hj) as Hcol. cbn in Hcol.
    by apply (Forall_lookup_1 _ _ _ _ Hcol Hi). }
  assert (Hlen : length column = nr).
  { by apply (Forall_lookup_1 _ _ _ _ (rt_well_formed df Hrt) Hj). }
  destruct Hst as (s & Hs & Hnum).
  unfold Worksheet.cell_at. rewrite written_inside.
  - rewrite (claimed_data df i j name column v Hj Hi). cbn.
    rewrite Hs. cbn. by split.
  - apply elem_of_rectangle. apply lookup_lt_Some in Hj, Hi.
    fold nc in Hj. lia.
Qed.

(** *** The extent of the written sheet *)

Lemma written_nonblank r c :
  Worksheet.nonblank g' r c =
  bool_decide (Worksheet.cell_at g' (Z.of_nat r) (Z.of_nat c) ≠ EmptyString).
Proof. done. Qed.

Lemma written_blank_right r c :
  (1 <= r <= row_count g)%nat -> (nc < c <= col_count g)%nat ->
  Worksheet.nonblank g' r c = false.
Proof.
  intros Hr Hc. apply bool_decide_eq_false. intros Hne. apply Hne.
  apply written_outside.
  - apply in_grid_nat; lia.
  - rewrite elem_of_rectangle. lia.
Qed.

Lemma written_blank_below r c :
  (nr + 1 < r <= row_count g)%nat -> (1 <= c <= col_count g)%nat ->
  Worksheet.nonblank g' r c = false.
Proof.
  intros Hr Hc. apply bool_decide_eq_false. intros Hne. apply Hne.
  apply written_outside.
  - apply in_grid_nat; lia.
  - rewrite elem_of_rectangle. lia.
Qed.

Lemma written_extent_header : Worksheet.row_extent g' 1 = nc.
Proof.
  destruct grid_holds_table as [Hrows Hcols].
  destruct written_dims as [_ Hc]. unfold Worksheet.row_extent. rewrite Hc.
  apply last_such_is; [lia | |].
  - destruct (lookup_lt_is_Some_2 (data df) (nc - 1)) as [[name column] Hj];
      [fold nc; lia|].
    apply bool_decide_eq_true.
    replace (Z.of_nat nc) with (Z.of_nat (nc - 1) + 1) by lia.
    change (Z.of_nat 1) with 1.
    rewrite (written_header (nc - 1) name column Hj).
    apply (Forall_lookup_1 _ _ (nc - 1) _ (rt_named df Hrt)).
    unfold columns. by rewrite list_lookup_fmap, Hj.
  - intros k Hk. apply written_blank_right; lia.
Qed.

Lemma written_extent_le r :
  (1 <= r <= row_count g)%nat -> (Worksheet.row_extent g' r <= nc)%nat.
Proof.
  intros Hr. destruct written_dims as [_ Hc].
  unfold Worksheet.row_extent. rewrite Hc.
  apply last_such_bound. intros k Hk. by apply written_blank_right.
Qed.

Lemma written_extent_below r :
  (nr + 1 < r <= row_count g)%nat -> Worksheet.row_extent g' r = 0%nat.
Proof.
  intros Hr. destruct written_dims as [_ Hc].
  unfold Worksheet.row_extent. rewrite Hc.
  apply last_such_none. intros k Hk. by apply written_blank_below.
Qed.

Lemma written_extent_last : Worksheet.row_extent g' (nr + 1) <> 0%nat.
Proof.
  destruct grid_holds_table as [Hrows Hcols].
  destruct (rt_last_row df Hrt) as [Hzero|(column & v & Hin & Hv & Hne)].
  - fold nr in Hzero. rewrite Hzero. cbn. rewrite written_extent_header. lia.
  - fold nr in Hv. destruct column as [name column].
    apply list_elem_of_lookup in Hin as [j Hj]. cbn in Hv.
    pose proof (lookup_lt_Some _ _ _ Hj) as Hjlt. fold nc in Hjlt.
    assert (Hlen : length column = nr).
    { by apply (Forall_lookup_1 _ _ _ _ (rt_well_formed df Hrt) Hj). }
    pose proof (lookup_lt_Some _ _ _ Hv) as Hilt.
    destruct (written_data (nr - 1) j name column v Hj Hv) as [Hrender Hnum].
    assert (Hst : stable v) by (by eexists).
    pose proof (stable_nonblank v _ Hst Hrender Hne) as Hshown.
    destruct written_dims as [_ Hc].
    assert (Hge : (j + 1 <= Worksheet.row_extent g' (nr + 1))%nat).
    { unfold Worksheet.row_extent. rewrite Hc.
      apply last_such_ge; [lia|]. apply bool_decide_eq_true.
      replace (Z.of_nat (nr + 1)) with (Z.of_nat (nr - 1) + 2) by lia.
      by replace (Z.of_nat (j + 1)) with (Z.of_nat j + 1) by lia. }
    lia.
Qed.

Lemma written_data_rows : Worksheet.data_rows g' = (nr + 1)%nat.
Proof.
  destruct grid_holds_table as [Hrows Hcols].
  destruct written_dims as [Hr _]. unfold Worksheet.data_rows. rewrite Hr.
  apply last_such_is; [lia | |].
  - apply negb_true_iff, Nat.eqb_neq, written_extent_last.
  - intros k Hk. rewrite written_extent_below by lia. done.
Qed.

Lemma written_data_cols : Worksheet.data_cols g' = nc.
Proof.
  destruct grid_holds_table as [Hrows Hcols].
  unfold Worksheet.data_cols. rewrite written_data_rows.
  apply Nat.le_antisymm.
  - apply max_list_bound, Forall_fmap, Forall_forall. intros r Hr.
    apply elem_of_seq in Hr. cbn. apply written_extent_le. lia.
  - rewrite <- written_extent_header at 1. apply max_list_elem_of_le.
    apply (list_elem_of_fmap_2 _ _ 1%nat). apply elem_of_seq. lia.
Qed.

Lemma written_all_values :
  Worksheet.all_values g' =
  (fun r => Worksheet.row_text g' r nc) <$> seq 1 (nr + 1).
Proof.
  unfold Worksheet.all_values. by rewrite written_data_rows, written_data_cols.
Qed.

(** *** What [read] finds in the written sheet *)

Lemma written_header_text : Worksheet.row_text g' 1 nc = columns df.
Proof.
  apply list_eq. intros j. unfold Worksheet.row_text, columns.
  rewrite !list_lookup_fmap.
  destruct (decide (j < nc)%nat) as [Hlt|Hge].
  - rewrite lookup_seq_lt by done. cbn.
    destruct (lookup_lt_is_Some_2 (data df) j) as [[name column] Hj];
      [done|].
    rewrite Hj. cbn. f_equal.
    replace (Z.of_nat (S j)) with (Z.of_nat j + 1) by lia.
    by apply (written_header j name column).
  - rewrite lookup_seq_ge by lia. cbn.
    by rewrite (lookup_ge_None_2 (data df)) by (fold nc; lia).
Qed.

Lemma written_row_text i :
  (i < nr)%nat ->
  Worksheet.numericise <$> Worksheet.row_text g' (2 + i) nc = table_row df i.
Proof.
  intros Hi. apply list_eq. intros j.
  unfold Worksheet.row_text, table_row. rewrite !list_lookup_fmap.
  destruct (decide (j < nc)%nat) as [Hlt|Hge].
  - rewrite lookup_seq_lt by done. cbn.
    destruct (lookup_lt_is_Some_2 (data df) j) as [[name column] Hj];
      [done|].
    rewrite Hj. cbn. f_equal.
    assert (Hlen : length column = nr).
    { by apply (Forall_lookup_1 _ _ _ _ (rt_well_formed df Hrt) Hj). }
    destruct (lookup_lt_is_Some_2 column i) as [v Hv]; [lia|].
    rewrite Hv. cbn.
    replace (Z.of_nat (S (S i))) with (Z.of_nat i + 2) by lia.
    replace (Z.of_nat (S j)) with (Z.of_nat j + 1) by lia.
    by destruct (written_data i j name column v Hj Hv) as [_ Hnum].
  - rewrite lookup_seq_ge by lia. cbn.
    by rewrite (lookup_ge_None_2 (data df)) by (fold nc; lia).
Qed.

Lemma written_records :
  sheet_records g' =
  (fun i => Worksheet.dict_zip (columns df) (table_row df i)) <$> seq 0 nr.
Proof.
  unfold sheet_records. rewrite written_all_values.
  replace (nr + 1)%nat with (S nr) by lia. cbn [seq fmap list_fmap lookup list_lookup drop].
  rewrite written_header_text, drop_0.
  rewrite <- list_fmap_compose.
  change (seq 2 nr) with (seq (2 + 0) nr).
  rewrite <- (fmap_add_seq 2 0 nr), <- list_fmap_compose.
  apply list_fmap_ext. intros k i Hk.
  apply lookup_seq in Hk as [-> Hk]. unfold compose.
  by rewrite (written_row_text (0 + k)) by lia.
Qed.

Lemma table_row_length i : length (table_row df i) = length (columns df).
Proof. unfold table_row, columns. by rewrite !length_fmap. Qed.

(** The table [read] builds from the written sheet is the table that
    was written. *)
Lemma written_read_table : read_table g' = df.
Proof.
  unfold read_table. rewrite written_extent_header, written_header_text.
  assert (Hkeep : filter (fun col => col ≠ EmptyString) (columns df)
                  = columns df).
  { pose proof (rt_named df Hrt) as Hnamed.
    induction Hnamed as [|x l Hx _ IH]; [done|].
    by rewrite filter_cons_True, IH. }
  rewrite Hkeep, written_records.
  apply DataFrame_eq.
  - cbn [from_records index_len]. by rewrite length_fmap, length_seq.
  - cbn [from_records data]. apply list_eq. intros j. unfold columns.
    rewrite !list_lookup_fmap.
    destruct (data df !! j) as [[name column]|] eqn:Hj; [|done].
    cbn [fmap option_fmap option_map fst]. do 2 f_equal.
    assert (Hlen : length column = nr).
    { by apply (Forall_lookup_1 _ _ _ _ (rt_well_formed _ Hrt) Hj). }
    apply list_eq. intros i. rewrite !list_lookup_fmap.
    destruct (decide (i < nr)%nat) as [Hlt|Hge].
    + rewrite lookup_seq_lt by done.
      cbn [fmap option_fmap option_map Nat.add].
      destruct (lookup_lt_is_Some_2 column i) as [v Hv]; [lia|].
      rewrite Hv. f_equal.
      rewrite (dict_zip_lookup _ _ j name v); [done | | | |].
      * apply (rt_distinct _ Hrt).
      * apply (table_row_length i).
      * unfold columns. by rewrite list_lookup_fmap, Hj.
      * unfold table_row. rewrite list_lookup_fmap, Hj. cbn.
        by rewrite Hv.
    + rewrite lookup_seq_ge by lia. cbn.
      by rewrite (lookup_ge_None_2 column) by lia.
Qed.

End written_sheet.

(** Every cell the loop of [write] fills can be sent. *)
Lemma claimed_renders df r c :
  round_trips df ->
  (r, c) ∈ rectangle (Z.of_nat (index_len df) + 1)
                     (Z.of_nat (length (data df))) ->
  is_Some (Worksheet.render (default VNaN (claimed_value df r c))).
Proof.
  intros Hrt Hin. apply elem_of_rectangle in Hin as [Hr Hc].
  destruct (lookup_lt_is_Some_2 (data df) (Z.to_nat (c - 1)))
    as [[name column] Hj]; [lia|].
  replace c with (Z.of_nat (Z.to_nat (c - 1)) + 1) by lia.
  destruct (decide (r = 1)) as [->|Hne].
  - rewrite (claimed_header df _ name column Hj). by eexists.
  - assert (Hlen : length column = index_len df).
    { by apply (Forall_lookup_1 _ _ _ _ (rt_well_formed df Hrt) Hj). }
    destruct (lookup_lt_is_Some_2 column (Z.to_nat (r - 2))) as [v Hv];
      [lia|].
    replace r with (Z.of_nat (Z.to_nat (r - 2)) + 2) by lia.
    rewrite (claimed_data df _ _ name column v Hj Hv). cbn.
    pose proof (Forall_lookup_1 _ _ _ _ (rt_stable df Hrt) Hj) as Hcol.
    cbn in Hcol.
    destruct (Forall_lookup_1 _ _ _ _ Hcol Hv) as (s & Hs & _).
    by eexists.
Qed.


Lemma people_table_round_trips : round_trips people_table.
Proof.
  split.
  - apply people_table_well_formed.
  - decide_by_compute.
  - repeat constructor; discriminate.
  - repeat constructor; by eexists.
  - right. exists ("name", [VStr "ann"; VStr "bob"]), (VStr "bob").
    split; [apply list_elem_of_here|]. by split.
Qed.

Lemma budget_sheet_blank nrows ncols : blank_outside budget_sheet nrows ncols.
Proof. by intros r c _ _. Qed.



(** The other conditions of the round trip are needed too, each on the
    blank worksheet. A column with the empty name is dropped. *)
Example unnamed_column_is_dropped :
  (read (__init__ robot None) 0%nat 1 None
        (write (__init__ robot None) 0%nat unnamed_column 1 budget_drive).2).1 =
  Ok (mkDataFrame 1 [("name", [VStr "zed"])]).
Proof. vm_compute. reflexivity. Qed.

(** A string that reads as a number comes back as the number. *)
Example numeric_text_comes_back_int :
  (read (__init__ robot None) 0%nat 1 None
        (write (__init__ robot None) 0%nat numeric_text 1 budget_drive).2).1 =
  Ok (mkDataFrame 1 [("code", [VInt 7])]).
Proof. vm_compute. reflexivity. Qed.

(** A last row of empty strings is not read back. *)
Example blank_last_row_is_lost :
  (read (__init__ robot None) 0%nat 1 None
        (write (__init__ robot None) 0%nat blank_last_row 1 budget_drive).2).1 =
  Ok (mkDataFrame 1 [("name", [VStr "zed"])]).
Proof. vm_compute. reflexivity. Qed.

(** Every int survives the sheet: its decimal text reads back as it. *)
Lemma int_stable z : stable (VInt z).
Proof.
  exists (str_of_int z). split; [done|].
  unfold Worksheet.numericise, int_of_str, str_of_int.
  rewrite NilZero.isi.
  - cbn. by rewrite DecimalZ.of_to.
  - destruct z as [|p|p]; cbn; [discriminate | | discriminate].
    intros [= Hp]. by apply (DecimalPos.Unsigned.to_uint_nonnil p).
  - destruct z as [|p|p]; cbn; [discriminate | discriminate |].
    intros [= Hp]. by apply (DecimalPos.Unsigned.to_uint_nonnil p).
Qed.

(** * Further properties of the connector *)

(** ** open *)

(** The run of [open] that finds the title. *)
Lemma open_found_run self sheet_title create w i f :
  drive w !! i = Some f ->
  title f = sheet_title ->
  (forall j f', drive w !! j = Some f' -> (j < i)%nat ->
                title f' <> sheet_title) ->
  open self sheet_title create w = (Ok i, logging w (call_open sheet_title)).
Proof.
  intros Hi Ht Hfirst.
  assert (Hfind : list_find (fun f => title f = sheet_title) (drive w)
                  = Some (i, f)).
  { apply list_find_Some. split; [done|]. split; [done|].
    intros j f' Hj Hlt. by apply (Hfirst j f'). }
  unfold open, try_except, bind at 1. unfold bind at 1.
  unfold Client.open, bind, record_call. cbn. by rewrite Hfind.
Qed.

(** X1. When a spreadsheet of the title is there, [open] returns the
    handle of the first one, with or without [create] and whatever the
    connector holds: the lookup is the only call, nothing is created or
    shared, and the state is otherwise untouched. *)
Theorem open_existing self sheet_title create w i f :
  drive w !! i = Some f ->
  title f = sheet_title ->
  (forall j f', drive w !! j = Some f' -> (j < i)%nat ->
                title f' <> sheet_title) ->
  open self sheet_title create w = (Ok i, logging w (call_open sheet_title)).
Proof. apply open_found_run. Qed.

Lemma open_existing_witness :
  open (__init__ robot None) "Budget" true budget_drive =
  (Ok 0%nat, logging budget_drive (call_open "Budget")).
Proof.
  apply (open_existing (__init__ robot None) "Budget" true budget_drive
           0%nat budget_file).
  - reflexivity.
  - reflexivity.
  - intros j f' _ Hj. lia.
Defined.

(** The run of [open] that may not create: [share_with] is unset or
    empty. *)
Lemma open_create_unset_run key share_with sheet_title w :
  sheet_title ∉ title <$> drive w ->
  share_with = None \/ share_with = Some EmptyString ->
  open (__init__ key share_with) sheet_title true w =
  (Raise (Exception unset_message), logging w (call_open sheet_title)).
Proof.
  intros Hno Hset. unfold open, try_except, bind at 1. unfold bind at 1.
  rewrite Client_open_missing by done. by destruct Hset as [-> | ->].
Qed.

(** X2. An empty string as [share_with] counts as unset: for a title
    that is not found, [open(title, create=True)] fails with the
    configuration error, and nothing is created. *)
Theorem open_create_empty_share_with key sheet_title w :
  sheet_title ∉ title <$> drive w ->
  open (__init__ key (Some EmptyString)) sheet_title true w =
  (Raise (Exception unset_message), logging w (call_open sheet_title)).
Proof. intros Hno. apply open_create_unset_run; [done | by right]. Qed.

Lemma ledger_not_in_budget_drive : "Ledger" ∉ title <$> drive budget_drive.
Proof. simpl. intros Hin. apply list_elem_of_singleton in Hin. discriminate. Qed.

Lemma open_create_empty_share_with_witness :
  open (__init__ robot (Some EmptyString)) "Ledger" true budget_drive =
  (Raise (Exception unset_message), logging budget_drive (call_open "Ledger")).
Proof.
  exact (open_create_empty_share_with robot "Ledger" budget_drive
           ledger_not_in_budget_drive).
Defined.

(** The run of [open] that creates. *)
Lemma open_create_run key grantee sheet_title w :
  sheet_title ∉ title <$> drive w ->
  grantee ≠ EmptyString ->
  open (__init__ key (Some grantee)) sheet_title true w =
  (Ok (length (drive w)),
   mkWorld
     (drive w ++
      [Spreadsheet.add_permission (mkPermission grantee "user" "writer")
         (Client.new_file sheet_title)])
     (calls w ++ [call_open sheet_title; call_create sheet_title;
                  call_share (length (drive w)) grantee "user" "writer"])
     (logged w ++ [created_message (Spreadsheet.id (length (drive w)))])).
Proof.
  intros Hno Hg.
  unfold open, try_except, bind at 1. unfold bind at 1.
  rewrite Client_open_missing by done. cbn [negb ret].
  unfold bind at 1. rewrite getattr_share_with. cbn [lift ret py_bool].
  rewrite bool_decide_true by done. cbn [negb].
  unfold bind, Client.create, Spreadsheet.share, record_call, logger_info,
    ret, lift, email_address. cbn.
  rewrite lookup_snoc. cbn. rewrite insert_snoc.
  by rewrite <- !app_assoc.
Qed.

(** X3. Opening with [create] twice creates once: after the call that
    created the spreadsheet, a second [open] of the same title, with or
    without [create], returns the same handle and changes nothing but
    the call log. *)
Theorem open_twice_creates_once key grantee sheet_title create w :
  sheet_title ∉ title <$> drive w ->
  grantee ≠ EmptyString ->
  exists sheet w1,
    open (__init__ key (Some grantee)) sheet_title true w = (Ok sheet, w1) /\
    open (__init__ key (Some grantee)) sheet_title create w1 =
      (Ok sheet, logging w1 (call_open sheet_title)).
Proof.
  intros Hno Hg. do 2 eexists. split; [by apply open_create_run|].
  apply (open_found_run _ _ _ _ _
           (Spreadsheet.add_permission (mkPermission grantee "user" "writer")
              (Client.new_file sheet_title))).
  - cbn. apply lookup_snoc.
  - done.
  - cbn. intros j f' Hj Hlt Ht. apply Hno. rewrite <- Ht.
    rewrite lookup_app_l in Hj by done.
    apply list_elem_of_fmap_2. by eapply list_elem_of_lookup_2.
Qed.

Lemma open_twice_creates_once_witness :
  exists sheet w1,
    open (__init__ robot (Some "owner@example.org")) "Ledger" true budget_drive
      = (Ok sheet, w1) /\
    open (__init__ robot (Some "owner@example.org")) "Ledger" false w1 =
      (Ok sheet, logging w1 (call_open "Ledger")).
Proof.
  apply (open_twice_creates_once robot "owner@example.org" "Ledger" false
           budget_drive ledger_not_in_budget_drive).
  discriminate.
Defined.

(** X4. [open] never alters or removes a spreadsheet: whatever the
    title, the flag and the state, the drive afterwards is the drive
    before, followed by at most one new spreadsheet; one is added only
    under [create], for a title that was not there, and it bears that
    title. *)
Theorem open_only_appends key share_with sheet_title create w :
  exists new,
    drive (open (__init__ key share_with) sheet_title create w).2
      = drive w ++ new /\
    (new = [] \/
     (create = true /\ (sheet_title ∉ title <$> drive w) /\
      exists f, new = [f] /\ title f = sheet_title)).
Proof.
  destruct (list_find (fun f => title f = sheet_title) (drive w))
    as [[i f]|] eqn:Hfind.
  - apply list_find_Some in Hfind as (Hi & Ht & Hfirst).
    exists []. rewrite (open_found_run _ _ _ _ i f Hi Ht)
      by (intros j f' Hj Hlt; by apply (Hfirst j f')).
    cbn. split; [by rewrite app_nil_r | by left].
  - assert (Hno : sheet_title ∉ title <$> drive w).
    { apply list_find_None in Hfind. intros Hin.
      apply list_elem_of_fmap in Hin as (f & -> & Hf).
      by apply (proj1 (Forall_forall _ _) Hfind f Hf). }
    destruct create.
    + destruct share_with as [grantee|].
      * destruct (decide (grantee = EmptyString)) as [->|Hg].
        -- exists []. rewrite open_create_unset_run by (done || by right).
           cbn. split; [by rewrite app_nil_r | by left].
        -- eexists. rewrite open_create_run by done. cbn.
           split; [reflexivity|]. right. eauto.
      * exists []. rewrite open_create_unset_run by (done || by left).
        cbn. split; [by rewrite app_nil_r | by left].
    + exists []. rewrite open_missing_no_create by done.
      cbn. split; [by rewrite app_nil_r | by left].
Qed.

(** ** write *)

Lemma list_index_beyond {A} (l : list A) (i : Z) :
  Z.of_nat (length l) <= i -> Spreadsheet.list_index l i = None.
Proof.
  intros Hi. unfold Spreadsheet.list_index.
  replace (i <? Z.of_nat (length l)) with false
    by (symmetry; apply Z.ltb_ge; lia).
  replace (i <? 0) with false by (symmetry; apply Z.ltb_ge; lia).
  by rewrite !andb_false_r.
Qed.

Lemma get_worksheet_none sheet index w f :
  drive w !! sheet = Some f ->
  Spreadsheet.list_index (sheets f) index = None ->
  Spreadsheet.get_worksheet sheet index w =
  (Ok None, logging w (call_get_worksheet sheet index)).
Proof.
  intros Hf Hk. unfold Spreadsheet.get_worksheet, bind, record_call.
  cbn. by rewrite Hf, Hk.
Qed.

(** X5. A worksheet number beyond the tabs of the spreadsheet makes
    [write] fail on the missing worksheet object, before any range is
    fetched: the lookup is the only call and nothing is written. *)
Theorem write_missing_worksheet self sheet df n w f :
  drive w !! sheet = Some f ->
  Z.of_nat (length (sheets f)) < n ->
  write self sheet df n w =
  (Raise (AttributeError "'NoneType' object has no attribute 'range'"),
   logging w (call_get_worksheet sheet (n - 1))).
Proof.
  intros Hf Hn. unfold write.
  assert (Hk : Spreadsheet.list_index (sheets f) (n - 1) = None)
    by (apply list_index_beyond; lia).
  rewrite (bind_ok _ _ _ _ _ (get_worksheet_none _ _ _ _ Hf Hk)).
  reflexivity.
Qed.

Lemma write_missing_worksheet_witness :
  write (__init__ robot None) 0%nat people_table 2 budget_drive =
  (Raise (AttributeError "'NoneType' object has no attribute 'range'"),
   logging budget_drive (call_get_worksheet 0%nat (2 - 1))).
Proof.
  apply (write_missing_worksheet (__init__ robot None) 0%nat people_table 2
           budget_drive budget_file).
  - reflexivity.
  - cbn. lia.
Defined.

Lemma range_drive ws r1 c1 r2 c2 w :
  drive (Worksheet.range ws r1 c1 r2 c2 w).2 = drive w.
Proof.
  unfold Worksheet.range, bind, record_call. cbn.
  destruct ((r1 <? 1) || (c1 <? 1) || (r2 <? 1) || (c2 <? 1)); [done|].
  destruct (Worksheet.lookup_ws _ ws) as [g|]; [|done].
  by destruct (Worksheet.in_grid g r2 c2).
Qed.

Lemma update_cells_raise_drive ws l w e w' :
  Worksheet.update_cells ws l w = (Raise e, w') -> drive w' = drive w.
Proof.
  unfold Worksheet.update_cells, bind, record_call. cbn.
  destruct l as [|c l]; [by intros; simplify_eq|].
  destruct (Worksheet.lookup_ws _ ws) as [g|]; [|by intros; simplify_eq].
  destruct (Worksheet.put_cells g (c :: l)); [discriminate|].
  by intros; simplify_eq.
Qed.

Lemma write_raise_keeps_drive self sheet df n w e :
  (write self sheet df n w).1 = Raise e ->
  drive (write self sheet df n w).2 = drive w.
Proof.
  destruct (write self sheet df n w) as [res w'] eqn:Hrun. cbn [fst snd].
  intros ->. unfold write in Hrun. unfold bind at 1 in Hrun.
  unfold Spreadsheet.get_worksheet at 1, bind at 1, record_call at 1 in Hrun.
  cbn [drive] in Hrun.
  destruct (drive w !! sheet) as [f|]; [|by simplify_eq].
  destruct (Spreadsheet.list_index (sheets f) (n - 1)) as [k|];
    [|cbn in Hrun; by simplify_eq].
  cbn [_shape_to_range shape method] in Hrun.
  unfold bind at 1 in Hrun.
  match type of Hrun with
  | context [Worksheet.range ?ws ?a ?b ?c ?d ?w1] =>
      pose proof (range_drive ws a b c d w1) as Hrange;
      destruct (Worksheet.range ws a b c d w1) as [[cell_list|e'] w2]
  end; cbn in Hrange; [|by simplify_eq].
  unfold bind at 1 in Hrun.
  match type of Hrun with
  | context [for_each ?l ?body ?w1] =>
      pose proof (for_each_state l body w1 (fill_cell_state df _)) as Hloop;
      destruct (for_each l body w1) as [[filled_list|e'] w3]
  end; cbn in Hloop; subst w3; [|by simplify_eq].
  by rewrite (update_cells_raise_drive _ _ _ _ _ Hrun).
Qed.

(** X6. [write] does not write in part: whatever the table, the
    worksheet number and the state, a call that raises leaves every
    spreadsheet of the drive as it was. *)
Theorem write_raises_nothing_written self sheet df n w e :
  (write self sheet df n w).1 = Raise e ->
  drive (write self sheet df n w).2 = drive w.
Proof. apply write_raise_keeps_drive. Qed.

Lemma write_raises_nothing_written_witness :
  drive (write (__init__ robot None) 0%nat people_table 2 budget_drive).2
  = drive budget_drive.
Proof.
  apply (write_raises_nothing_written (__init__ robot None) 0%nat
           people_table 2 budget_drive
           (AttributeError "'NoneType' object has no attribute 'range'")).
  reflexivity.
Defined.

Lemma fill_cell_position df col_indexes cell w cell' w' :
  fill_cell df col_indexes cell w = (Ok cell', w') ->
  position cell' = position cell.
Proof.
  unfold fill_cell, bind, lift, ret, raise.
  destruct (row cell =? 1), (dict_getitem col_indexes (col cell - 1));
    try discriminate.
  - by intros; simplify_eq.
  - destruct (getitem df a); [|discriminate].
    destruct (getitem_int a0 _); [|discriminate]. by intros; simplify_eq.
Qed.

Lemma for_each_positions df col_indexes l : forall w l' w',
  for_each l (fill_cell df col_indexes) w = (Ok l', w') ->
  position <$> l' = position <$> l.
Proof.
  induction l as [|cell l IH]; intros w l' w' Hrun.
  - cbn in Hrun. unfold ret in Hrun. by simplify_eq.
  - cbn [for_each] in Hrun. unfold bind at 1 in Hrun.
    destruct (fill_cell df col_indexes cell w) as [[cell'|e] w1] eqn:Hcell;
      [|discriminate].
    unfold bind at 1 in Hrun.
    destruct (for_each l (fill_cell df col_indexes) w1) as [[l1|e] w2]
      eqn:Hrest; [|discriminate].
    unfold ret in Hrun. simplify_eq. cbn.
    by rewrite (fill_cell_position _ _ _ _ _ _ Hcell), (IH _ _ _ Hrest).
Qed.

Lemma with_worksheet_same files sheet k f g :
  files !! sheet = Some f -> sheets f !! k = Some g ->
  with_worksheet files sheet k f g = files.
Proof.
  intros Hf Hg. unfold with_worksheet.
  rewrite (list_insert_id (sheets f) k g Hg).
  apply list_insert_id. by destruct f.
Qed.

(** What a run of [write] on a worksheet that exists comes to: either
    it raises and the drive is as before, or it returns after one batch
    update of a cell list that covers the rectangle of the table. *)
Lemma write_outcome self sheet df n w f k g :
  drive w !! sheet = Some f ->
  Spreadsheet.list_index (sheets f) (n - 1) = Some k ->
  sheets f !! k = Some g ->
  (exists e, (write self sheet df n w).1 = Raise e /\
             drive (write self sheet df n w).2 = drive w) \/
  (exists cell_list g',
      (write self sheet df n w).1 = Ok tt /\
      drive (write self sheet df n w).2
        = with_worksheet (drive w) sheet k f g' /\
      Worksheet.put_cells g cell_list = Some g' /\
      position <$> cell_list =
        rectangle (Z.of_nat (index_len df) + 1)
                  (Z.of_nat (length (data df)))).
Proof.
  intros Hf Hk Hg.
  destruct ((write self sheet df n w).1) as [[]|e] eqn:Hres;
    [|left; exists e; split; [done|];
      by apply (write_raise_keeps_drive self sheet df n w e)].
  right. destruct (write self sheet df n w) as [res w'] eqn:Hrun.
  cbn [fst snd] in *. subst res. unfold write in Hrun.
  rewrite (bind_ok _ _ _ _ _ (get_worksheet_found _ _ _ _ _ Hf Hk)) in Hrun.
  cbn [_shape_to_range shape method] in Hrun.
  unfold bind at 1 in Hrun.
  unfold Worksheet.range at 1, bind at 1, record_call at 1 in Hrun.
  cbn [drive calls logged logging] in Hrun.
  destruct ((1 <? 1) || (1 <? 1) || (Z.of_nat (index_len df) + 1 <? 1)
            || (Z.of_nat (length (data df)) <? 1)); [discriminate|].
  unfold Worksheet.lookup_ws at 1 in Hrun. cbn [drive fst snd] in Hrun.
  rewrite Hf, Hg in Hrun.
  destruct (Worksheet.in_grid g _ _); [|discriminate].
  unfold bind at 1 in Hrun.
  match type of Hrun with
  | context [for_each ?l (fill_cell df ?ci) ?w1] =>
      pose proof (for_each_state l (fill_cell df ci) w1
                    (fill_cell_state df ci)) as Hloop;
      pose proof (for_each_positions df ci l w1) as Hpos;
      destruct (for_each l (fill_cell df ci) w1) as [[filled_list|e'] w3]
  end; [|discriminate].
  cbn in Hloop. subst w3. specialize (Hpos _ _ eq_refl).
  rewrite rect_cells_position in Hpos.
  unfold Worksheet.update_cells, bind, record_call in Hrun.
  cbn [drive calls logged] in Hrun.
  destruct filled_list as [|c l]; [discriminate|].
  unfold Worksheet.lookup_ws at 1 in Hrun. cbn [drive fst snd] in Hrun.
  rewrite Hf, Hg in Hrun.
  destruct (Worksheet.put_cells g (c :: l)) as [g'|] eqn:Hput;
    [|discriminate].
  exists (c :: l), g'. split; [done|]. split; [|done].
  apply (f_equal snd) in Hrun. cbn [snd] in Hrun. subst w'.
  unfold Worksheet.store_ws. cbn. by rewrite Hf.
Qed.

(** X7. Whatever the table, a [write] on a worksheet that exists leaves
    the rest of the drive alone: the other spreadsheets, the title, the
    permissions and the other worksheets of this one are as before; the
    grid keeps its size, and every cell outside rows 1..row_count+1 by
    columns 1..col_count keeps its text. *)
Theorem write_touches_only_the_rectangle self sheet df n w f k g :
  drive w !! sheet = Some f ->
  Spreadsheet.list_index (sheets f) (n - 1) = Some k ->
  sheets f !! k = Some g ->
  exists g',
    drive (write self sheet df n w).2 = with_worksheet (drive w) sheet k f g'
    /\ row_count g' = row_count g
    /\ col_count g' = col_count g
    /\ forall r c,
         (r, c) ∉ rectangle (Z.of_nat (index_len df) + 1)
                            (Z.of_nat (length (data df))) ->
         Worksheet.cell_at g' r c = Worksheet.cell_at g r c.
Proof.
  intros Hf Hk Hg.
  destruct (write_outcome self sheet df n w f k g Hf Hk Hg)
    as [(e & _ & Hdrive)|(cell_list & g' & _ & Hdrive & Hput & Hpos)].
  - exists g. rewrite Hdrive, with_worksheet_same by done. done.
  - exists g'. split; [done|].
    destruct (put_cells_dims _ _ _ Hput) as [Hr Hc]. split; [done|].
    split; [done|]. intros r c Hout. unfold Worksheet.cell_at.
    rewrite (put_cells_other _ _ _ (r, c) Hput); [done|]. by rewrite Hpos.
Qed.

Lemma write_touches_only_the_rectangle_witness :
  exists g',
    drive (write (__init__ robot None) 0%nat one_name 1 people_drive).2
      = with_worksheet (drive people_drive) 0%nat 0%nat
          (mkFile "People" [people_sheet] []) g'
    /\ row_count g' = row_count people_sheet
    /\ col_count g' = col_count people_sheet
    /\ forall r c,
         (r, c) ∉ rectangle (Z.of_nat (index_len one_name) + 1)
                            (Z.of_nat (length (data one_name))) ->
         Worksheet.cell_at g' r c = Worksheet.cell_at people_sheet r c.
Proof.
  apply (write_touches_only_the_rectangle (__init__ robot None) 0%nat
           one_name 1 people_drive (mkFile "People" [people_sheet] [])
           0%nat people_sheet); reflexivity.
Defined.

Lemma claimed_sendable df r c :
  well_formed df -> sendable df ->
  (r, c) ∈ rectangle (Z.of_nat (index_len df) + 1)
                     (Z.of_nat (length (data df))) ->
  is_Some (Worksheet.render (default VNaN (claimed_value df r c))).
Proof.
  intros Hwf Hsend Hin. apply elem_of_rectangle in Hin as [Hr Hc].
  destruct (lookup_lt_is_Some_2 (data df) (Z.to_nat (c - 1)))
    as [[name column] Hj]; [lia|].
  replace c with (Z.of_nat (Z.to_nat (c - 1)) + 1) by lia.
  destruct (decide (r = 1)) as [->|Hne].
  - rewrite (claimed_header df _ name column Hj). by eexists.
  - assert (Hlen : length column = index_len df).
    { by apply (Forall_lookup_1 _ _ _ _ Hwf Hj). }
    destruct (lookup_lt_is_Some_2 column (Z.to_nat (r - 2))) as [v Hv];
      [lia|].
    replace r with (Z.of_nat (Z.to_nat (r - 2)) + 2) by lia.
    rewrite (claimed_data df _ _ name column v Hj Hv). cbn.
    pose proof (Forall_lookup_1 _ _ _ _ Hsend Hj) as Hcol. cbn in Hcol.
    pose proof (Forall_lookup_1 _ _ _ _ Hcol Hv) as Hnan. cbn in Hnan.
    destruct v; by eauto.
Qed.

(** The run of [write] that returns: the world afterwards, and the grid
    the batch update leaves. *)
Lemma write_returns_run self sheet df n w f k g :
  drive w !! sheet = Some f ->
  Spreadsheet.list_index (sheets f) (n - 1) = Some k ->
  sheets f !! k = Some g ->
  Worksheet.in_grid g (Z.of_nat (index_len df) + 1)
                      (Z.of_nat (length (data df))) = true ->
  well_formed df ->
  NoDup (columns df) ->
  sendable df ->
  exists g',
    Worksheet.put_cells g
      (filled df <$> Worksheet.rect_cells g 1 1 (Z.of_nat (index_len df) + 1)
                        (Z.of_nat (length (data df))))
    = Some g' /\
    write self sheet df n w =
    (Ok tt,
     Worksheet.store_ws
       (logging
          (logging (logging w (call_get_worksheet sheet (n - 1)))
             (call_range (sheet, k) 1 1 (Z.of_nat (index_len df) + 1)
                (Z.of_nat (length (data df)))))
          (call_update_cells (sheet, k)
             (filled df <$>
              Worksheet.rect_cells g 1 1 (Z.of_nat (index_len df) + 1)
                (Z.of_nat (length (data df))))))
       (sheet, k) g').
Proof.
  intros Hf Hk Hg Hin Hwf Hnd Hsend.
  set (nrows := Z.of_nat (index_len df) + 1) in *.
  set (ncols := Z.of_nat (length (data df))) in *.
  set (cell_list := filled df <$> Worksheet.rect_cells g 1 1 nrows ncols).
  destruct (put_cells_is_Some cell_list g) as [g' Hput].
  { apply Forall_fmap, Forall_forall. intros cell Hcell.
    apply (list_elem_of_fmap_2 position) in Hcell.
    rewrite rect_cells_position in Hcell. destruct cell as [r c v].
    cbn in Hcell. cbn. split.
    - by apply claimed_sendable.
    - apply elem_of_rectangle in Hcell. cbn in Hcell.
      pose proof (proj1 (in_grid_bounds _ _ _) Hin) as Hb.
      apply in_grid_bounds. lia. }
  assert (Hne : cell_list <> []).
  { intros Hnil. apply (f_equal (fmap position)) in Hnil.
    unfold cell_list in Hnil.
    rewrite filled_position, rect_cells_position in Hnil.
    assert (H11 : (1, 1) ∈ rectangle nrows ncols).
    { apply elem_of_rectangle.
      pose proof (proj1 (in_grid_bounds _ _ _) Hin) as Hb. lia. }
    rewrite Hnil in H11. by inversion H11. }
  exists g'. split; [done|].
  rewrite (write_run self sheet df n w f k g Hf Hk Hg Hin Hwf Hnd).
  apply (update_cells_run _ _ _ g g'); [|done|done].
  unfold Worksheet.lookup_ws. cbn. by rewrite Hf.
Qed.


Lemma people_table_sendable : sendable people_table.
Proof. repeat constructor; discriminate. Qed.


(** *** Tables [write] refuses *)

Lemma range_refused_run self sheet df n w f k e :
  drive w !! sheet = Some f ->
  Spreadsheet.list_index (sheets f) (n - 1) = Some k ->
  (Worksheet.range (sheet, k) 1 1 (Z.of_nat (index_len df) + 1)
     (Z.of_nat (length (data df)))
     (logging w (call_get_worksheet sheet (n - 1)))).1 = Raise e ->
  write self sheet df n w =
  (Raise e,
   logging (logging w (call_get_worksheet sheet (n - 1)))
     (call_range (sheet, k) 1 1 (Z.of_nat (index_len df) + 1)
        (Z.of_nat (length (data df))))).
Proof.
  intros Hf Hk Hrange. unfold write.
  rewrite (bind_ok _ _ _ _ _ (get_worksheet_found _ _ _ _ _ Hf Hk)).
  cbn [_shape_to_range shape method].
  apply bind_raise.
  unfold Worksheet.range, bind, record_call in *. cbn in *.
  destruct ((Z.of_nat (index_len df) + 1 <? 1)
            || (Z.of_nat (length (data df)) <? 1)).
  - cbn in Hrange. by simplify_eq.
  - destruct (Worksheet.lookup_ws _ _) as [g|]; [|cbn in Hrange; by simplify_eq].
    destruct (Worksheet.in_grid g _ _); cbn in Hrange; by simplify_eq.
Qed.

(** X9. A table without columns cannot be written: the range asked for
    ends in column 0, which has no label, so [write] fails after the
    lookup and the range call, and nothing is written. *)
Theorem write_no_columns self sheet df n w f k :
  drive w !! sheet = Some f ->
  Spreadsheet.list_index (sheets f) (n - 1) = Some k ->
  data df = [] ->
  write self sheet df n w =
  (Raise IncorrectCellLabel,
   logging (logging w (call_get_worksheet sheet (n - 1)))
     (call_range (sheet, k) 1 1 (Z.of_nat (index_len df) + 1) 0)).
Proof.
  intros Hf Hk Hdata.
  rewrite (range_refused_run self sheet df n w f k IncorrectCellLabel Hf Hk).
  - by rewrite Hdata.
  - rewrite Hdata. unfold Worksheet.range, bind, record_call. cbn.
    by rewrite orb_true_r.
Qed.

Lemma write_no_columns_witness :
  write (__init__ robot None) 0%nat no_columns 1 budget_drive =
  (Raise IncorrectCellLabel,
   logging (logging budget_drive (call_get_worksheet 0%nat (1 - 1)))
     (call_range (0%nat, 0%nat) 1 1 (Z.of_nat (index_len no_columns) + 1) 0)).
Proof.
  apply (write_no_columns (__init__ robot None) 0%nat no_columns 1
           budget_drive budget_file 0%nat); reflexivity.
Defined.



Lemma for_each_app_raise {A B} (l1 l2 : list A) (body : A -> M B) w e w' :
  for_each l1 body w = (Raise e, w') ->
  for_each (l1 ++ l2) body w = (Raise e, w').
Proof.
  revert w. induction l1 as [|x l1 IH]; intros w Hrun.
  - cbn in Hrun. unfold ret in Hrun. discriminate.
  - cbn [for_each app] in *. unfold bind at 1 in Hrun. unfold bind at 1.
    destruct (body x w) as [[y|e1] w1]; [|done].
    unfold bind at 1 in Hrun. unfold bind at 1.
    destruct (for_each l1 body w1) as [[ys|e2] w2] eqn:Hrest.
    + unfold ret in Hrun. discriminate.
    + simplify_eq. by rewrite (IH _ Hrest).
Qed.

(** A loop whose body leaves the state alone and can only raise [e]
    raises [e] as soon as one turn does. *)
Lemma for_each_some_raise {A B} (l : list A) (body : A -> M B) w e :
  Forall (fun x => (exists y, body x w = (Ok y, w)) \/
                   body x w = (Raise e, w)) l ->
  Exists (fun x => body x w = (Raise e, w)) l ->
  for_each l body w = (Raise e, w).
Proof.
  induction 1 as [|x l Hx Hl IH]; intros Hex; [by inversion Hex|].
  cbn [for_each]. unfold bind at 1.
  destruct Hx as [[y Hy]|Hx]; [|by rewrite Hx].
  rewrite Hy. unfold bind at 1. rewrite IH; [done|].
  apply Exists_cons in Hex as [Hex|Hex]; [congruence | done].
Qed.

Lemma filter_length_two {A} (P : A -> Prop) `{forall x, Decision (P x)}
    (l : list A) : forall i j x y,
  (i < j)%nat -> l !! i = Some x -> l !! j = Some y -> P x -> P y ->
  (2 <= length (filter P l))%nat.
Proof.
  induction l as [|a l IH]; intros i j x y Hij Hi Hj Hx Hy; [done|].
  destruct j as [|j]; [lia|]. cbn in Hj. destruct i as [|i]; cbn in Hi.
  - simplify_eq. rewrite filter_cons_True by done. cbn.
    assert (Hin : y ∈ filter P l).
    { apply list_elem_of_filter. split; [done|].
      by eapply list_elem_of_lookup_2. }
    destruct (filter P l); [by inversion Hin | cbn; lia].
  - assert (Hrec : (2 <= length (filter P l))%nat)
      by (apply (IH i j x y); [lia | done..]).
    destruct (decide (P a)).
    + rewrite filter_cons_True by done. cbn. lia.
    + by rewrite filter_cons_False.
Qed.

Lemma rectangle_split a b ncols :
  0 <= a -> 0 <= b ->
  exists rest, rectangle (a + b) ncols = rectangle a ncols ++ rest.
Proof.
  intros Ha Hb. unfold rectangle. rewrite seqZ_app by done.
  rewrite bind_app. by eexists.
Qed.

Section twice_a_name.

Variable df : DataFrame.
Hypothesis Hwf : well_formed df.
Hypothesis Hrows : (1 <= index_len df)%nat.

Let col_indexes : gmap Z string :=
  list_to_map (reverse (enumerate (columns df))).

(** In the first row of data, the loop body either fills the cell or
    raises the KeyError of the row label 0 on a frame of several
    columns. *)
Lemma fill_cell_first_row cell w j name column :
  row cell = 2 ->
  col cell = Z.of_nat j + 1 ->
  data df !! j = Some (name, column) ->
  ((exists y, fill_cell df col_indexes cell w = (Ok y, w)) \/
   fill_cell df col_indexes cell w = (Raise (KeyError "0"), w)) /\
  ((2 <= length (named name df))%nat ->
   fill_cell df col_indexes cell w = (Raise (KeyError "0"), w)).
Proof.
  intros Hr Hc Hj.
  assert (Hname : columns df !! Z.to_nat (col cell - 1) = Some name).
  { unfold columns. rewrite list_lookup_fmap.
    replace (Z.to_nat (col cell - 1)) with j by lia. by rewrite Hj. }
  assert (Hidx : dict_getitem col_indexes (col cell - 1) = Ok name).
  { apply col_indexes_lookup. split; [lia | done]. }
  assert (Hnamed : (name, column) ∈ named name df).
  { apply list_elem_of_filter. split; [done|].
    by eapply list_elem_of_lookup_2. }
  assert (Hlen : length column = index_len df).
  { by apply (Forall_lookup_1 _ _ _ _ Hwf Hj). }
  assert (Hcell : forall sel,
             getitem df name = Ok sel ->
             fill_cell df col_indexes cell w =
             match getitem_int sel 0 with
             | Ok v => (Ok (set_value cell v), w)
             | Raise e => (Raise e, w)
             end).
  { intros sel Hget. unfold fill_cell. rewrite Hr. cbn [Z.eqb Pos.eqb].
    rewrite Hidx. cbn [lift]. unfold bind at 1, ret at 1.
    rewrite Hget. cbn [lift]. unfold bind, ret, lift.
    change (2 - 2) with 0. by destruct (getitem_int sel 0). }
  destruct (named name df) as [|c0 [|c1 rest]] eqn:Hn.
  - by inversion Hnamed.
  - apply list_elem_of_singleton in Hnamed. subst c0.
    rewrite (Hcell (Series name column))
      by (unfold getitem; fold (named name df); by rewrite Hn).
    destruct column as [|v column]; [cbn in Hlen; lia|].
    cbn. split; [left; by eexists | lia].
  - rewrite (Hcell (Frame (c0 :: c1 :: rest)))
      by (unfold getitem; fold (named name df); by rewrite Hn).
    cbn. split; [by right | done].
Qed.

End twice_a_name.

(** X11. Column names must be distinct once there is a row: for a
    well-formed table with at least one row in which two columns bear
    the same name, [write] fails in its loop with the KeyError of the
    row label 0 (the selection by that name is a frame, not a column),
    after the lookup and the range call, and nothing is written. *)
Theorem write_shared_column_name self sheet df n w f k g i j name ci cj :
  drive w !! sheet = Some f ->
  Spreadsheet.list_index (sheets f) (n - 1) = Some k ->
  sheets f !! k = Some g ->
  Worksheet.in_grid g (Z.of_nat (index_len df) + 1)
                      (Z.of_nat (length (data df))) = true ->
  well_formed df ->
  (1 <= index_len df)%nat ->
  i <> j ->
  data df !! i = Some (name, ci) ->
  data df !! j = Some (name, cj) ->
  write self sheet df n w =
  (Raise (KeyError "0"),
   logging (logging w (call_get_worksheet sheet (n - 1)))
     (call_range (sheet, k) 1 1 (Z.of_nat (index_len df) + 1)
        (Z.of_nat (length (data df))))).
Proof.
  intros Hf Hk Hg Hin Hwf Hrows Hij Hi Hj.
  assert (Htwice : (2 <= length (named name df))%nat).
  { unfold named. destruct (decide (i < j)%nat).
    - by apply (filter_length_two _ _ i j (name, ci) (name, cj)).
    - apply (filter_length_two _ _ j i (name, cj) (name, ci)); [lia|done..]. }
  pose proof (lookup_lt_Some _ _ _ Hi) as Hilt.
  unfold write.
  rewrite (bind_ok _ _ _ _ _ (get_worksheet_found _ _ _ _ _ Hf Hk)).
  cbn [_shape_to_range shape method].
  erewrite bind_ok; last first.
  { apply range_inside; [|exact Hin].
    unfold Worksheet.lookup_ws, logging. cbn. by rewrite Hf. }
  apply bind_raise. unfold Worksheet.rect_cells.
  rewrite rect_positions_rectangle.
  replace (Z.of_nat (index_len df) + 1)
    with (2 + (Z.of_nat (index_len df) - 1)) by lia.
  destruct (rectangle_split 2 (Z.of_nat (index_len df) - 1)
              (Z.of_nat (length (data df)))) as [rest ->]; [lia | lia|].
  rewrite fmap_app. apply for_each_app_raise, for_each_some_raise.
  - apply Forall_fmap, Forall_forall. intros [r c] Hrc.
    apply elem_of_rectangle in Hrc as [Hr Hc]. cbn.
    destruct (decide (r = 1)) as [->|Hne].
    + left. eexists. apply fill_cell_header; cbn; lia.
    + destruct (lookup_lt_is_Some_2 (data df) (Z.to_nat (c - 1)))
        as [[name' column] Hcol]; [lia|].
      refine (proj1 (fill_cell_first_row df Hwf Hrows _ _
                       (Z.to_nat (c - 1)) name' column _ _ Hcol));
        cbn; lia.
  - apply Exists_exists.
    exists (mkCell 2 (Z.of_nat i + 1)
              (VStr (Worksheet.cell_at g 2 (Z.of_nat i + 1)))).
    split.
    + apply (list_elem_of_fmap_2
               (fun p => mkCell p.1 p.2 (VStr (Worksheet.cell_at g p.1 p.2)))
               _ (2, Z.of_nat i + 1)).
      apply elem_of_rectangle. lia.
    + by refine (proj2 (fill_cell_first_row df Hwf Hrows _ _ i name ci
                          _ _ Hi) Htwice).
Qed.

Lemma write_shared_column_name_witness :
  write (__init__ robot None) 0%nat twice_named 1 budget_drive =
  (Raise (KeyError "0"),
   logging (logging budget_drive (call_get_worksheet 0%nat (1 - 1)))
     (call_range (0%nat, 0%nat) 1 1 (Z.of_nat (index_len twice_named) + 1)
        (Z.of_nat (length (data twice_named))))).
Proof.
  apply (write_shared_column_name (__init__ robot None) 0%nat twice_named 1
           budget_drive budget_file 0%nat budget_sheet 0%nat 1%nat "name"
           [VStr "ann"] [VStr "bob"]).
  - reflexivity.
  - reflexivity.
  - reflexivity.
  - reflexivity.
  - repeat constructor.
  - cbn. lia.
  - lia.
  - reflexivity.
  - reflexivity.
Defined.

(** ** read *)

(** X12. A worksheet number beyond the tabs of the spreadsheet makes
    [read] fail on the missing worksheet object: the lookup is the only
    call. *)
Theorem read_missing_worksheet self sheet n data_types w f :
  drive w !! sheet = Some f ->
  Z.of_nat (length (sheets f)) < n ->
  read self sheet n data_types w =
  (Raise (AttributeError
            "'NoneType' object has no attribute 'get_all_records'"),
   logging w (call_get_worksheet sheet (n - 1))).
Proof.
  intros Hf Hn. unfold read.
  assert (Hk : Spreadsheet.list_index (sheets f) (n - 1) = None)
    by (apply list_index_beyond; lia).
  rewrite (bind_ok _ _ _ _ _ (get_worksheet_none _ _ _ _ Hf Hk)).
  reflexivity.
Qed.

Lemma read_missing_worksheet_witness :
  read (__init__ robot None) 0%nat 2 None budget_drive =
  (Raise (AttributeError
            "'NoneType' object has no attribute 'get_all_records'"),
   logging budget_drive (call_get_worksheet 0%nat (2 - 1))).
Proof.
  apply (read_missing_worksheet (__init__ robot None) 0%nat 2 None
           budget_drive budget_file).
  - reflexivity.
  - cbn. lia.
Defined.

(** X13. Worksheet number 0 does not fail: the index handed to the
    library is -1, which counts from the end, so [read] returns the
    table of the last worksheet of the spreadsheet. *)
Theorem read_number_zero_is_last self sheet w f g :
  drive w !! sheet = Some f ->
  last (sheets f) = Some g ->
  read self sheet 0 None w =
  (Ok (read_table g), after_read w sheet 0 (length (sheets f) - 1)).
Proof.
  intros Hf Hlast.
  assert (Hlen : (1 <= length (sheets f))%nat).
  { destruct (sheets f); [done | cbn; lia]. }
  apply (read_run self sheet 0 None w f (length (sheets f) - 1) g Hf).
  - unfold Spreadsheet.list_index.
    replace (0 <=? 0 - 1) with false by done. cbn [andb].
    replace ((- Z.of_nat (length (sheets f)) <=? 0 - 1) && (0 - 1 <? 0))
      with true
      by (symmetry; apply andb_true_intro; split;
          [apply Z.leb_le | apply Z.ltb_lt]; lia).
    f_equal. lia.
  - rewrite last_lookup in Hlast.
    by replace (length (sheets f) - 1)%nat with (pred (length (sheets f)))
      by lia.
Qed.

Lemma read_number_zero_is_last_witness :
  read (__init__ robot None) 0%nat 0 None people_drive =
  (Ok (read_table people_sheet),
   after_read people_drive 0%nat 0
     (length (sheets (mkFile "People" [people_sheet] [])) - 1)).
Proof.
  apply (read_number_zero_is_last (__init__ robot None) 0%nat people_drive
           (mkFile "People" [people_sheet] []) people_sheet); reflexivity.
Defined.

Lemma get_worksheet_drive sheet index w :
  drive (Spreadsheet.get_worksheet sheet index w).2 = drive w.
Proof.
  unfold Spreadsheet.get_worksheet, bind, record_call. cbn.
  destruct (drive w !! sheet) as [f|]; [|done].
  by destruct (Spreadsheet.list_index (sheets f) index).
Qed.

Lemma get_all_records_drive ws head w :
  drive (Worksheet.get_all_records ws head w).2 = drive w.
Proof.
  unfold Worksheet.get_all_records, bind, record_call. cbn.
  destruct (Worksheet.lookup_ws _ ws) as [g|]; [|done].
  by destruct (Worksheet.all_values g !! Z.to_nat (head - 1)).
Qed.

Lemma row_values_drive ws r w :
  drive (Worksheet.row_values ws r w).2 = drive w.
Proof.
  unfold Worksheet.row_values, bind, record_call. cbn.
  by destruct (Worksheet.lookup_ws _ ws).
Qed.

Lemma cast_column_drive df col t w :
  drive (cast_column df col t w).2 = drive w.
Proof.
  unfold cast_column, try_except, bind, lift, ret, raise, astype,
    record_call.
  destruct (getitem df col) as [sel|e]; cbn; [|by destruct e].
  destruct sel as [name vals|cols].
  - destruct (cast_values t vals) as [vals'|e]; cbn; [done | by destruct e].
  - destruct (cast_cols t cols) as [cols'|e]; cbn; [done | by destruct e].
Qed.

Lemma cast_loop_drive items : forall df w,
  drive (cast_loop items df w).2 = drive w.
Proof.
  induction items as [|[col t] items IH]; intros df w; [done|].
  cbn [cast_loop]. destruct (bool_decide (col ∉ columns df)); [done|].
  unfold bind. pose proof (cast_column_drive df col t w) as Hstep.
  destruct (cast_column df col t w) as [[df1|e] w1]; cbn in Hstep.
  - by rewrite IH.
  - done.
Qed.

(** X14. [read] only reads: whatever the worksheet number, the
    [data_types] and the state, and whether it returns or raises, every
    spreadsheet of the drive is afterwards as it was. *)
Theorem read_leaves_drive self sheet n data_types w :
  drive (read self sheet n data_types w).2 = drive w.
Proof.
  unfold read. unfold bind at 1.
  pose proof (get_worksheet_drive sheet (n - 1) w) as H1.
  destruct (Spreadsheet.get_worksheet sheet (n - 1) w) as [[worksheet|e] w1];
    cbn in H1; [|done].
  destruct worksheet as [ws|]; cbn [method]; [|done].
  unfold bind at 1.
  pose proof (get_all_records_drive ws 1 w1) as H2.
  destruct (Worksheet.get_all_records ws 1 w1) as [[contents|e] w2];
    cbn in H2; [|cbn; congruence].
  unfold bind at 1.
  pose proof (row_values_drive ws 1 w2) as H3.
  destruct (Worksheet.row_values ws 1 w2) as [[header|e] w3];
    cbn in H3; [|cbn; congruence].
  destruct data_types as [items|].
  - rewrite cast_loop_drive. congruence.
  - cbn. congruence.
Qed.

Lemma blank_read_table g :
  (forall r c, Worksheet.cell_at g r c = EmptyString) ->
  read_table g = mkDataFrame 0 [].
Proof.
  intros Hblank.
  assert (Hextent : forall r, Worksheet.row_extent g r = 0%nat).
  { intros r. apply last_such_none. intros c _.
    apply bool_decide_eq_false. intros Hne. by apply Hne. }
  assert (Hrows : Worksheet.data_rows g = 0%nat).
  { apply last_such_none. intros r _. by rewrite Hextent. }
  unfold read_table, sheet_records, Worksheet.all_values.
  by rewrite Hrows, Hextent.
Qed.

(** X15. A worksheet without any text reads as the empty table: no
    column and no row. With a [data_types] that has an entry, the read
    fails with the KeyError of its first entry. *)
Theorem read_blank_worksheet self sheet n w f k g :
  drive w !! sheet = Some f ->
  Spreadsheet.list_index (sheets f) (n - 1) = Some k ->
  sheets f !! k = Some g ->
  (forall r c, Worksheet.cell_at g r c = EmptyString) ->
  read self sheet n None w = (Ok (mkDataFrame 0 []), after_read w sheet n k)
  /\ forall col t rest,
       read self sheet n (Some ((col, t) :: rest)) w =
       (Raise (KeyError (key_message col)), after_read w sheet n k).
Proof.
  intros Hf Hk Hg Hblank. split.
  - rewrite (read_run self sheet n None w f k g Hf Hk Hg).
    by rewrite blank_read_table.
  - intros col t rest.
    rewrite (read_run self sheet n _ w f k g Hf Hk Hg).
    by rewrite blank_read_table.
Qed.

Lemma read_blank_worksheet_witness :
  read (__init__ robot None) 0%nat 1 None budget_drive
    = (Ok (mkDataFrame 0 []), after_read budget_drive 0%nat 1 0%nat)
  /\ forall col t rest,
       read (__init__ robot None) 0%nat 1 (Some ((col, t) :: rest))
            budget_drive =
       (Raise (KeyError (key_message col)),
        after_read budget_drive 0%nat 1 0%nat).
Proof.
  apply (read_blank_worksheet (__init__ robot None) 0%nat 1 budget_drive
           budget_file 0%nat budget_sheet); reflexivity.
Defined.

(** *** The casts of a [read] that returns *)

Lemma replace_named col vals (cols : list (string * list value)) :
  filter (fun c => c.1 = col)
    ((fun c => if decide (c.1 = col) then (c.1, vals) else c) <$> cols) =
  (fun c => (c.1, vals)) <$> filter (fun c => c.1 = col) cols.
Proof.
  induction cols as [|c cols IH]; [done|]. cbn [fmap list_fmap].
  destruct (decide (c.1 = col)) as [Hc|Hc].
  - rewrite !filter_cons_True by done. cbn. by rewrite IH.
  - rewrite !filter_cons_False by done. done.
Qed.

Lemma assign_named col (cols : list (string * list value)) : forall new,
  new.*1 = (filter (fun c => c.1 = col) cols).*1 ->
  filter (fun c => c.1 = col) (assign col (new.*2) cols) = new.
Proof.
  induction cols as [|[n vals] cols IH]; intros new Hnames.
  - cbn in Hnames. by destruct new.
  - cbn [assign]. destruct (decide (n = col)) as [->|Hne].
    + rewrite filter_cons_True in Hnames by done.
      destruct new as [|[n' vals'] new]; [done|].
      cbn [fmap list_fmap fst] in Hnames. injection Hnames as -> Hnames.
      cbn [fmap list_fmap snd].
      rewrite filter_cons_True by done. by rewrite IH.
    + rewrite filter_cons_False in Hnames by done.
      rewrite filter_cons_False by done. by apply IH.
Qed.

(** One turn of the loop on an entry that passes: what it leaves. *)
Lemma cast_column_passes df col t w :
  col ∈ columns df ->
  column_representable df col t ->
  exists df1,
    cast_column df col t w = (Ok df1, logging w (call_astype col t)) /\
    same_outside col (data df) (data df1) /\
    index_len df1 = index_len df /\
    cast_cols t (named col df) = Ok (named col df1).
Proof.
  intros Hin Hrep. unfold cast_column, try_except, column_representable in *.
  destruct (getitem_present df col Hin)
    as [(vals & Hn & Hget)|[Hget Hname]]; rewrite Hget; cbn [lift].
  - rewrite Hn in Hrep. rewrite Forall_singleton in Hrep. cbn in Hrep.
    destruct (cast_values_cases t vals) as [[_ [vals' Hc]]|[Hnot _]];
      [|contradiction].
    exists (setitem df col (Series col vals')). split.
    { unfold bind, ret, astype, record_call, lift. cbn. by rewrite Hc. }
    split; [by apply setitem_same_outside|].
    unfold setitem. rewrite decide_True by done. split; [done|].
    unfold named at 2. cbn [data]. rewrite replace_named.
    fold (named col df). rewrite Hn. cbn. by rewrite Hc.
  - destruct (cast_cols_cases t (named col df))
      as [[_ (cols' & Hc & Hnames)]|[Hnot _]]; [|contradiction].
    exists (setitem df col (Frame cols')). split.
    { unfold bind, ret, astype, record_call, lift. rewrite Hname. cbn.
      by rewrite Hc. }
    split; [by apply (setitem_same_outside df col (Frame cols'))|].
    split; [done|]. unfold named at 2. cbn [setitem data].
    by rewrite assign_named.
Qed.

(** The loop over entries that all pass. *)
Lemma cast_loop_all_pass items : forall df w,
  NoDup items.*1 ->
  Forall (passes df) items ->
  exists df',
    cast_loop items df w = (Ok df', logging_all w (astype_calls items)) /\
    index_len df' = index_len df /\
    columns df' = columns df /\
    (forall c, c ∉ items.*1 -> named c df' = named c df) /\
    (forall c t, (c, t) ∈ items -> cast_cols t (named c df) = Ok (named c df')).
Proof.
  induction items as [|[col t] items IH]; intros df w Hnd Hpass.
  - exists df. cbn. unfold ret. rewrite logging_all_nil.
    repeat split; try done. intros c t Hin. by inversion Hin.
  - cbn [fmap list_fmap fst] in Hnd. apply NoDup_cons in Hnd as [Hfresh Hnd].
    apply Forall_cons in Hpass as [[Hin Hrep] Hpass]. cbn [fst snd] in *.
    destruct (cast_column_passes df col t w Hin Hrep)
      as (df1 & Hstep & Hsame & Hlen & Hcast).
    destruct (IH df1 (logging w (call_astype col t)) Hnd)
      as (df' & Hloop & Hlen' & Hcols & Hother & Hcasts).
    { apply Forall_forall. intros item Hitem.
      apply (passes_same_outside col df); [done | |].
      - intros Heq. apply Hfresh. rewrite <- Heq.
        by apply list_elem_of_fmap_2.
      - by apply (proj1 (Forall_forall _ _) Hpass). }
    assert (Hkeep : forall c, c ≠ col -> named c df1 = named c df).
    { intros c Hne. unfold named.
      by rewrite (same_outside_filter _ _ _ _ Hsame Hne). }
    exists df'. split; [|split; [|split; [|split]]].
    + cbn [cast_loop]. rewrite bool_decide_false by (intros H; by apply H).
      rewrite (bind_ok _ _ _ _ _ Hstep). rewrite Hloop.
      by rewrite logging_all_cons.
    + congruence.
    + rewrite Hcols. unfold columns.
      by rewrite (same_outside_columns _ _ _ Hsame).
    + intros c Hc. cbn [fmap list_fmap fst] in Hc.
      apply not_elem_of_cons in Hc as [Hne Hc].
      by rewrite (Hother c Hc), Hkeep.
    + intros c t' Hct. apply elem_of_cons in Hct as [Heq|Hct].
      * simplify_eq. by rewrite (Hother col Hfresh).
      * rewrite <- Hkeep.
        -- by apply Hcasts.
        -- intros ->. apply Hfresh.
           by apply (list_elem_of_fmap_2 fst _ (col, t')).
Qed.


Lemma people_age_passes_str :
  passes (read_table people_sheet) ("age", str_t).
Proof.
  rewrite read_table_people. split.
  - apply list_elem_of_further, list_elem_of_here.
  - unfold column_representable. apply Forall_singleton.
    repeat constructor; by eexists.
Qed.


(** ** write, then write, then read *)

Lemma stored_file w0 sheet k f g g' :
  drive w0 !! sheet = Some f ->
  sheets f !! k = Some g ->
  drive (Worksheet.store_ws w0 (sheet, k) g') !! sheet =
  Some (mkFile (title f) (<[k := g']> (sheets f)) (permissions f)).
Proof.
  intros Hf Hg. unfold Worksheet.store_ws. cbn. rewrite Hf. cbn.
  apply list_lookup_insert_eq. by eapply lookup_lt_Some.
Qed.

Lemma list_index_insert {A} (l : list A) k x i :
  Spreadsheet.list_index (<[k := x]> l) i = Spreadsheet.list_index l i.
Proof. unfold Spreadsheet.list_index. by rewrite length_insert. Qed.

Lemma stable_sendable df :
  Forall (fun column => Forall stable column.2) (data df) -> sendable df.
Proof.
  intros Hall. eapply Forall_impl; [exact Hall|]. intros column Hcol. cbn in *.
  eapply Forall_impl; [exact Hcol|]. intros v (s & Hs & _) ->. discriminate.
Qed.


Lemma other_people_round_trips : round_trips other_people.
Proof.
  split.
  - repeat constructor.
  - decide_by_compute.
  - repeat constructor; discriminate.
  - repeat constructor; by eexists.
  - right. exists ("city", [VStr "oslo"; VStr "rome"]), (VStr "rome").
    split; [apply list_elem_of_here|]. by split.
Qed.


(** ** The calls of read *)

Lemma cast_column_world df col t w :
  col ∈ columns df ->
  (cast_column df col t w).2 = logging w (call_astype col t).
Proof.
  intros Hin.
  destruct (cast_cols_cases t (named col df)) as [[Hall _]|[Hnot _]].
  - destruct (cast_column_ok df col t w Hin Hall) as (df1 & Hok & _).
    by rewrite Hok.
  - by rewrite (cast_column_fails df col t w Hin Hnot).
Qed.

Lemma cast_loop_calls items : forall df w,
  exists reached,
    reached `prefix_of` items /\
    calls (cast_loop items df w).2 = calls w ++ astype_calls reached.
Proof.
  induction items as [|[col t] items IH]; intros df w.
  - exists []. split; [done|]. cbn. by rewrite app_nil_r.
  - cbn [cast_loop].
    destruct (bool_decide (col ∉ columns df)) eqn:Hin.
    + exists []. split; [apply prefix_nil|]. cbn. by rewrite app_nil_r.
    + apply bool_decide_eq_false in Hin. apply dec_stable in Hin.
      pose proof (cast_column_world df col t w Hin) as Hw.
      unfold bind.
      destruct (cast_column df col t w) as [[df1|e] w1]; cbn in Hw; subst w1.
      * destruct (IH df1 (logging w (call_astype col t)))
          as (reached & Hpre & Hcalls).
        exists ((col, t) :: reached). split; [by apply prefix_cons|].
        rewrite Hcalls. cbn. by rewrite <- app_assoc.
      * exists [(col, t)]. split; [apply prefix_cons, prefix_nil|]. done.
Qed.

(** X18. On a worksheet that exists, [read] makes one lookup of the
    worksheet, one fetch of all records with row 1 as the header and one
    fetch of the values of row 1, in this order, whatever the sheet
    holds and whether it returns or raises; the only other calls are
    one [astype] for each entry of [data_types] it reaches, in the order
    of the entries. *)
Theorem read_fetches_once self sheet n data_types w f k g :
  drive w !! sheet = Some f ->
  Spreadsheet.list_index (sheets f) (n - 1) = Some k ->
  sheets f !! k = Some g ->
  exists reached,
    reached `prefix_of` default [] data_types /\
    calls (read self sheet n data_types w).2 =
    calls w ++
    [call_get_worksheet sheet (n - 1);
     call_get_all_records (sheet, k) 1;
     call_row_values (sheet, k) 1] ++ astype_calls reached.
Proof.
  intros Hf Hk Hg.
  rewrite (read_run self sheet n data_types w f k g Hf Hk Hg).
  destruct data_types as [items|].
  - destruct (cast_loop_calls items (read_table g) (after_read w sheet n k))
      as (reached & Hpre & Hcalls).
    exists reached. split; [done|]. rewrite Hcalls. cbn.
    by rewrite <- !app_assoc.
  - exists []. split; [done|]. cbn. by rewrite <- !app_assoc.
Qed.

Lemma read_fetches_once_witness :
  exists reached,
    reached `prefix_of` default [] (Some [("age", int_t); ("zip", str_t)]) /\
    calls (read (__init__ robot None) 0%nat 1
                (Some [("age", int_t); ("zip", str_t)]) people_drive).2 =
    calls people_drive ++
    [call_get_worksheet 0%nat (1 - 1);
     call_get_all_records (0%nat, 0%nat) 1;
     call_row_values (0%nat, 0%nat) 1] ++ astype_calls reached.
Proof.
  apply (read_fetches_once (__init__ robot None) 0%nat 1
           (Some [("age", int_t); ("zip", str_t)]) people_drive
           (mkFile "People" [people_sheet] []) 0%nat people_sheet);
    reflexivity.
Defined.
